(** * PEM collections of pkg/certificate (certificateCollection.go)

    A shallow embedding of the Go package's [ChainOption], [PEMCollection],
    its constructor, its two mutators, the bundle parser
    [PEMCollectionFromBytes] and the exporter [ToTLSCertificate], followed by
    the properties the specification states about them.

    The Go standard library (strings, encoding/pem, crypto/x509) and the two
    key encoders of the package are reached through the [Library] class: the
    embedded functions are written against that interface, exactly as the Go
    file is written against its imports. *)

From Stdlib Require Import List String Ascii Bool Arith NArith Lia.
From Stdlib Require Import Strings.Byte.
Import ListNotations.
Local Open Scope string_scope.
Local Open Scope list_scope.

Set Implicit Arguments.

(** ** Go values *)

(** A Go [[]byte]. A Go [string] is a Rocq [string]; the conversions
    [string(b)] and [[]byte(s)] are [string_of_list_byte] and
    [list_byte_of_string]. *)
Definition bytes : Type := list byte.

(** Go's [error] values. The package builds its own errors with
    [fmt.Errorf("%w: ...", verror.VcertError)]; every other error comes out
    of a library call and is passed through untouched. *)
Inductive error : Type :=
| VcertError (detail : string)
| LibraryError (message : string).

(** A Go result pair [(T, error)]: either [(v, nil)] or [(zero, err)]. *)
Inductive result (A : Type) : Type :=
| Ok (v : A)
| Err (e : error).
Arguments Ok {A} v.
Arguments Err {A} e.

(** What running a function can end in. [Panics] is a Go run-time panic
    (nil pointer dereference, index out of range); [OutOfFuel] says that the
    bound given to an unbounded [for] loop was used up. *)
Inductive outcome (A : Type) : Type :=
| Returns (v : A)
| Panics
| OutOfFuel.
Arguments Returns {A} v.
Arguments Panics {A}.
Arguments OutOfFuel {A}.

Definition bindOutcome {A B : Type} (o : outcome A) (k : A -> outcome B)
  : outcome B :=
  match o with
  | Returns v => k v
  | Panics => Panics
  | OutOfFuel => OutOfFuel
  end.

Notation "x <- o ;; k" := (bindOutcome o (fun x => k))
  (at level 61, o at next level, right associativity).

(** ** Imported types *)

Module pem.
(** [pem.Block]. [Headers] is a Go map; the package never reads it. *)
Record Block : Type := mkBlock {
  Type_ : string;
  Headers : list (string * string);
  Bytes : bytes
}.
End pem.

Module x509.
(** [x509.Certificate]; [Raw] is the only field the package reads. *)
Record Certificate : Type := mkCertificate { Raw : bytes }.
End x509.

(** ** strings.ToLower *)

Definition isASCIIByte (c : ascii) : bool := (nat_of_ascii c <? 128)%nat.

Definition isUpperByte (c : ascii) : bool :=
  ((65 <=? nat_of_ascii c) && (nat_of_ascii c <=? 90))%nat.

(** [c += 'a' - 'A'] for the bytes ['A'..'Z']. *)
Definition lowerByte (c : ascii) : ascii :=
  if isUpperByte c then ascii_of_nat (nat_of_ascii c + 32) else c.

Fixpoint forallString (f : ascii -> bool) (s : string) : bool :=
  match s with
  | EmptyString => true
  | String c s' => f c && forallString f s'
  end.

Fixpoint existsString (f : ascii -> bool) (s : string) : bool :=
  match s with
  | EmptyString => false
  | String c s' => f c || existsString f s'
  end.

Fixpoint mapString (f : ascii -> ascii) (s : string) : string :=
  match s with
  | EmptyString => EmptyString
  | String c s' => String (f c) (mapString f s')
  end.

(** ** ChainOption *)

Inductive ChainOption : Type :=
| ChainOptionRootLast
| ChainOptionRootFirst
| ChainOptionIgnore.

(** The [iota] numbering of the constants. *)
Definition ChainOption_value (c : ChainOption) : nat :=
  match c with
  | ChainOptionRootLast => 0
  | ChainOptionRootFirst => 1
  | ChainOptionIgnore => 2
  end.

Definition ChainOption_eqb (a b : ChainOption) : bool :=
  (ChainOption_value a =? ChainOption_value b)%nat.

(** ** PEMCollection *)

Record PEMCollection : Type := mkPEMCollection {
  Certificate : string;
  PrivateKey : string;
  Chain : list string;
  CSR : string
}.

(** [PEMCollection{}] *)
Definition emptyPEMCollection : PEMCollection :=
  mkPEMCollection "" "" [] "".

Definition setCertificate (col : PEMCollection) (s : string) : PEMCollection :=
  mkPEMCollection s (PrivateKey col) (Chain col) (CSR col).

Definition setPrivateKey (col : PEMCollection) (s : string) : PEMCollection :=
  mkPEMCollection (Certificate col) s (Chain col) (CSR col).

Definition setChain (col : PEMCollection) (c : list string) : PEMCollection :=
  mkPEMCollection (Certificate col) (PrivateKey col) c (CSR col).

Module tls.
(** A Go pointer to a parsed key: [None] is the nil pointer. *)
Definition pointer (key : Type) : Type := option key.

(** [tls.Certificate], the fields the exporter fills: the DER chain and the
    private key. [key] is whatever the x509 key parsers hand back. The
    private key is a Go interface value: [None] is the nil interface, the
    unset field; [Some ptr] is an interface that holds the pointer [ptr],
    which is itself nil after a failed parse into a pointer type. *)
Record Certificate (key : Type) : Type := mkCertificate {
  CertificateDER : list bytes;
  PrivateKey : option (pointer key)
}.
Arguments mkCertificate {key} _ _.
Arguments CertificateDER {key} _.
Arguments PrivateKey {key} _.
End tls.

(** ** The imports of the package *)

Class Library : Type := {
  (** [crypto.Signer] and [crypto.PrivateKey] values. *)
  Signer : Type;
  ParsedKey : Type;
  (** The rune-wise branch of [strings.ToLower],
      [strings.Map(unicode.ToLower, s)], taken when [s] is not pure ASCII. *)
  unicode_ToLower : string -> string;
  (** [pem.Decode]: [None] is the nil block, otherwise the block and the
      rest of the input. *)
  pem_Decode : bytes -> option (pem.Block * bytes);
  (** [pem.EncodeToMemory]; a nil result is the empty slice. *)
  pem_EncodeToMemory : pem.Block -> bytes;
  x509_ParseCertificate : bytes -> result x509.Certificate;
  x509_ParseECPrivateKey : bytes -> result ParsedKey;
  x509_ParsePKCS1PrivateKey : bytes -> result ParsedKey;
  x509_ParsePKCS8PrivateKey : bytes -> result ParsedKey;
  (** The key encoders of the package (certificate.go); their first
      argument is a [crypto.Signer] interface value, [None] when nil. *)
  GetPrivateKeyPEMBock : option Signer -> string -> result pem.Block;
  GetEncryptedPrivateKeyPEMBock :
    option Signer -> bytes -> string -> result pem.Block
}.

(** Modelled from the spec: [GetCertificatePEMBlock] of certificate.go, which
    is not among the sources. The specification has certificates stored as
    PEM blocks labelled CERTIFICATE whose payload is the certificate's DER. *)
Definition GetCertificatePEMBlock (cert : bytes) : pem.Block :=
  pem.mkBlock "CERTIFICATE" [] cert.

Section Package.
Context {lib : Library}.

(** [strings.ToLower]: the ASCII fast path is written out, the other
    branch is the library's. *)
Definition ToLower (s : string) : string :=
  if forallString isASCIIByte s then
    if negb (existsString isUpperByte s) then s
    else mapString lowerByte s
  else unicode_ToLower s.

Definition ChainOptionFromString (order : string) : ChainOption :=
  let lowered := ToLower order in
  if lowered =? "root-first" then ChainOptionRootFirst
  else if lowered =? "ignore" then ChainOptionIgnore
  else ChainOptionRootLast.

(** [string(pem.EncodeToMemory(GetCertificatePEMBlock(raw)))] *)
Definition certificatePEM (raw : bytes) : string :=
  string_of_list_byte (pem_EncodeToMemory (GetCertificatePEMBlock raw)).

(** The [format ...string] prologue shared by the constructor and
    [AddPrivateKey]. *)
Definition currentFormatOf (format : list string) : string :=
  match format with
  | f :: _ => if negb (f =? "") then f else ""
  | [] => ""
  end.

(** The choice between the two key encoders. *)
Definition encodePrivateKey (privateKey : option Signer)
    (privateKeyPassword : bytes) (currentFormat : string)
  : result pem.Block :=
  if (0 <? List.length privateKeyPassword)%nat then
    GetEncryptedPrivateKeyPEMBock privateKey privateKeyPassword currentFormat
  else GetPrivateKeyPEMBock privateKey currentFormat.

Definition NewPEMCollection (certificate : option x509.Certificate)
    (privateKey : option Signer) (privateKeyPassword : bytes)
    (format : list string) : result PEMCollection :=
  let collection := emptyPEMCollection in
  let currentFormat := currentFormatOf format in
  let collection :=
    match certificate with
    | Some c => setCertificate collection (certificatePEM (x509.Raw c))
    | None => collection
    end in
  match privateKey with
  | Some k =>
      match encodePrivateKey (Some k) privateKeyPassword currentFormat with
      | Err err => Err err
      | Ok p =>
          Ok (setPrivateKey collection
                (string_of_list_byte (pem_EncodeToMemory p)))
      end
  | None => Ok collection
  end.

(** A method on [*PEMCollection]: the receiver after the call, and the
    returned error. *)
Definition AddPrivateKey (col : PEMCollection) (privateKey : option Signer)
    (privateKeyPassword : bytes) (format : list string)
  : PEMCollection * option error :=
  let currentFormat := currentFormatOf format in
  if negb (PrivateKey col =? "") then
    (col, Some (VcertError "the PEM Collection can only contain one private key"))
  else
    match encodePrivateKey privateKey privateKeyPassword currentFormat with
    | Err err => (col, Some err)
    | Ok p =>
        (setPrivateKey col (string_of_list_byte (pem_EncodeToMemory p)),
         None)
    end.

Definition AddChainElement (col : PEMCollection)
    (certificate : option x509.Certificate)
  : PEMCollection * option error :=
  match certificate with
  | None => (col, Some (VcertError "certificate cannot be nil"))
  | Some c =>
      let pemChain := Chain col in
      let pemChain := pemChain ++ [certificatePEM (x509.Raw c)] in
      (setChain col pemChain, None)
  end.

(** The labels the bundle parser takes for a private key. *)
Definition isPrivateKeyType (t : string) : bool :=
  (t =? "RSA PRIVATE KEY") || (t =? "EC PRIVATE KEY")
  || (t =? "ENCRYPTED PRIVATE KEY") || (t =? "PRIVATE KEY").

(** The [for] loop of [PEMCollectionFromBytes]: [current] is the cursor,
    [chain] and [privPEM] the two accumulators. The Go loop has no bound; it
    ends when [pem.Decode] returns a nil block. [fuel] bounds the number of
    iterations. *)
Fixpoint scanBlocks (fuel : nat) (current : bytes)
    (chain : list x509.Certificate) (privPEM : string)
  : outcome (result (list x509.Certificate * string)) :=
  match fuel with
  | O => OutOfFuel
  | S fuel' =>
      match pem_Decode current with
      | None => Returns (Ok (chain, privPEM))
      | Some (p, remaining) =>
          if pem.Type_ p =? "CERTIFICATE" then
            match x509_ParseCertificate (pem.Bytes p) with
            | Err err => Returns (Err err)
            | Ok cert => scanBlocks fuel' remaining (chain ++ [cert]) privPEM
            end
          else if isPrivateKeyType (pem.Type_ p) then
            scanBlocks fuel' remaining chain (string_of_list_byte current)
          else scanBlocks fuel' remaining chain privPEM
      end
  end.

(** [for _, caCert := range cas { err = collection.AddChainElement(caCert);
    if err != nil { return nil, err } }], started with the pair
    [(collection, err)] that [NewPEMCollection] returned. On [Err] the
    receiver is nil and the first iteration dereferences it. *)
Fixpoint addChainElements (collection : result PEMCollection)
    (cas : list x509.Certificate) : outcome (result PEMCollection) :=
  match cas with
  | [] => Returns collection
  | caCert :: cas' =>
      match collection with
      | Err _ => Panics
      | Ok col =>
          match AddChainElement col (Some caCert) with
          | (col', None) => addChainElements (Ok col') cas'
          | (_, Some err) => Returns (Err err)
          end
      end
  end.

(** One [case] of the [switch chainOrder]: the constructor call on the
    chosen certificate, then the guarded loop over the others. *)
Definition collectionWithChain (single : x509.Certificate)
    (others : list x509.Certificate) (chain : list x509.Certificate)
    (chainOrder : ChainOption) : outcome (result PEMCollection) :=
  let collection := NewPEMCollection (Some single) None [] [] in
  if (1 <? List.length chain)%nat
     && negb (ChainOption_eqb chainOrder ChainOptionIgnore)
  then addChainElements collection others
  else Returns collection.

(** [chain[i]]: indexing out of range panics. *)
Definition index (chain : list x509.Certificate) (i : nat)
  : outcome x509.Certificate :=
  match nth_error chain i with
  | Some c => Returns c
  | None => Panics
  end.

(** The part of [PEMCollectionFromBytes] after the loop: the
    [if len(chain) > 0] with its [switch], then the assignment of the
    private key. *)
Definition assembleCollection (chain : list x509.Certificate)
    (privPEM : string) (chainOrder : ChainOption)
  : outcome (result PEMCollection) :=
  built <-
    (if (0 <? List.length chain)%nat then
       match chainOrder with
       | ChainOptionRootFirst =>
           single <- index chain (List.length chain - 1) ;;
           collectionWithChain single
             (firstn (List.length chain - 1) chain) chain chainOrder
       | _ =>
           single <- index chain 0 ;;
           collectionWithChain single (skipn 1 chain) chain chainOrder
       end
     else Returns (Ok emptyPEMCollection)) ;;
  match built with
  | Err err => Returns (Err err)
  | Ok collection => Returns (Ok (setPrivateKey collection privPEM))
  end.

Definition PEMCollectionFromBytes (fuel : nat) (certBytes : bytes)
    (chainOrder : ChainOption) : outcome (result PEMCollection) :=
  scanned <- scanBlocks fuel certBytes [] "" ;;
  match scanned with
  | Err err => Returns (Err err)
  | Ok (chain, privPEM) => assembleCollection chain privPEM chainOrder
  end.

(** The loop of [ToTLSCertificate] over [col.Chain]: each entry is decoded
    and its bytes appended; a nil block panics at [b.Bytes]. *)
Fixpoint appendChainDER (certificate : list bytes) (chain : list string)
  : outcome (list bytes) :=
  match chain with
  | [] => Returns certificate
  | c :: chain' =>
      match pem_Decode (list_byte_of_string c) with
      | None => Panics
      | Some (b, _) => appendChainDER (certificate ++ [pem.Bytes b]) chain'
      end
  end.

(** [v, _ = parse(...)]: the error is dropped, the value kept. *)
Definition dropError {A : Type} (r : result A) : option A :=
  match r with
  | Ok v => Some v
  | Err _ => None
  end.

(** The [switch b.Type] on the decoded private key block, as the value of
    [cert.PrivateKey] after it. x509.ParseECPrivateKey returns a pointer
    that is assigned to the field whatever the error, so the field then
    holds a pointer, nil when the parse failed. In the RSA case the
    value of x509.ParsePKCS1PrivateKey is kept only when [err == nil];
    otherwise the value of x509.ParsePKCS8PrivateKey is taken, an interface
    that is nil when that parse fails too. No other label is handled. *)
Definition parsePrivateKey (b : pem.Block)
  : option (tls.pointer ParsedKey) :=
  if pem.Type_ b =? "EC PRIVATE KEY" then
    Some (dropError (x509_ParseECPrivateKey (pem.Bytes b)))
  else if pem.Type_ b =? "RSA PRIVATE KEY" then
    match x509_ParsePKCS1PrivateKey (pem.Bytes b) with
    | Ok privKey => Some (Some privKey)
    | Err _ =>
        match x509_ParsePKCS8PrivateKey (pem.Bytes b) with
        | Ok privKey => Some (Some privKey)
        | Err _ => None
        end
    end
  else None.

Definition ToTLSCertificate (col : PEMCollection)
  : outcome (tls.Certificate ParsedKey) :=
  match pem_Decode (list_byte_of_string (Certificate col)) with
  | None => Panics
  | Some (b, _) =>
      certificate <- appendChainDER ([] ++ [pem.Bytes b]) (Chain col) ;;
      match pem_Decode (list_byte_of_string (PrivateKey col)) with
      | None => Panics
      | Some (b, _) =>
          Returns (tls.mkCertificate certificate (parsePrivateKey b))
      end
  end.

(** ** Vocabulary of the statements *)

(** [decodesTo data trace cursor]: applying [pem.Decode] again and again
    from [data] yields the blocks of [trace], each paired with the cursor it
    was decoded at, and leaves the cursor at [cursor]. *)
Inductive decodesTo : bytes -> list (bytes * pem.Block) -> bytes -> Prop :=
| decodesTo_here : forall data, decodesTo data [] data
| decodesTo_step : forall data p remaining trace cursor,
    pem_Decode data = Some (p, remaining) ->
    decodesTo remaining trace cursor ->
    decodesTo data ((data, p) :: trace) cursor.

(** A bundle: the trace runs until [pem.Decode] finds no further block. *)
Definition bundleOf (data : bytes) (trace : list (bytes * pem.Block))
  : Prop :=
  exists cursor, decodesTo data trace cursor /\ pem_Decode cursor = None.

(** The block is labelled CERTIFICATE and parses as [c]. *)
Definition parsesAs (step : bytes * pem.Block) (c : x509.Certificate)
  : Prop :=
  pem.Type_ (snd step) = "CERTIFICATE"
  /\ x509_ParseCertificate (pem.Bytes (snd step)) = Ok c.

(** No block labelled CERTIFICATE fails to parse. *)
Definition certificateParses (step : bytes * pem.Block) : Prop :=
  pem.Type_ (snd step) = "CERTIFICATE" ->
  exists c, x509_ParseCertificate (pem.Bytes (snd step)) = Ok c.

Definition isPrivateKeyBlock (step : bytes * pem.Block) : Prop :=
  isPrivateKeyType (pem.Type_ (snd step)) = true.

(** The trace of [data], computed: at most [fuel] blocks. *)
Fixpoint traceOf (fuel : nat) (data : bytes) : list (bytes * pem.Block) :=
  match fuel with
  | O => []
  | S fuel' =>
      match pem_Decode data with
      | None => []
      | Some (p, remaining) => (data, p) :: traceOf fuel' remaining
      end
  end.

(** The certificates of a trace, in decode order. *)
Definition certificatesOf (trace : list (bytes * pem.Block))
  : list x509.Certificate :=
  flat_map
    (fun step =>
       if pem.Type_ (snd step) =? "CERTIFICATE" then
         match x509_ParseCertificate (pem.Bytes (snd step)) with
         | Ok c => [c]
         | Err _ => []
         end
       else [])
    trace.

(** The private key text after a trace, started from [privPEM]. *)
Definition keyTextOf (trace : list (bytes * pem.Block)) (privPEM : string)
  : string :=
  fold_left
    (fun acc step =>
       if pem.Type_ (snd step) =? "CERTIFICATE" then acc
       else if isPrivateKeyType (pem.Type_ (snd step))
            then string_of_list_byte (fst step)
            else acc)
    trace privPEM.

(** The positional rule of the specification, as a pure function of the
    certificates found and the policy: the single certificate, and the
    certificates of the chain. *)
Definition singleOf (chain : list x509.Certificate) (chainOrder : ChainOption)
  : option x509.Certificate :=
  match chainOrder with
  | ChainOptionRootFirst => last (map Some chain) None
  | _ => hd_error chain
  end.

Definition othersOf (chain : list x509.Certificate) (chainOrder : ChainOption)
  : list x509.Certificate :=
  match chainOrder with
  | ChainOptionRootFirst => removelast chain
  | ChainOptionRootLast => tl chain
  | ChainOptionIgnore => []
  end.

(** The PEM encoding of a certificate, written without the helpers of the
    package: the text pem.EncodeToMemory gives for the block labelled
    CERTIFICATE, without headers, whose payload is the certificate's DER. *)
Definition pemOf (c : x509.Certificate) : string :=
  string_of_list_byte
    (pem_EncodeToMemory (pem.mkBlock "CERTIFICATE" [] (x509.Raw c))).

(** [s] is PEM text that decodes to a block labelled CERTIFICATE with
    payload [raw]. *)
Definition isCertificatePEM (s : string) (raw : bytes) : Prop :=
  exists p rest,
    pem_Decode (list_byte_of_string s) = Some (p, rest)
    /\ pem.Type_ p = "CERTIFICATE" /\ pem.Bytes p = raw.

(** Encoding block [b] and decoding the text gives [b] back. *)
Definition pemRoundTrips (b : pem.Block) : Prop :=
  exists rest, pem_Decode (pem_EncodeToMemory b) = Some (b, rest).

(** [pem.Decode([]byte(s))] returns a block, or the nil block. *)
Definition decodable (s : string) : Prop :=
  exists p rest, pem_Decode (list_byte_of_string s) = Some (p, rest).

Definition undecodable (s : string) : Prop :=
  pem_Decode (list_byte_of_string s) = None.

(** The chain invariant: entry by entry, the chain is PEM text of a
    CERTIFICATE block whose payload is the DER listed in [raws]. *)
Definition chainHolds (col : PEMCollection) (raws : list bytes) : Prop :=
  Forall2 isCertificatePEM (Chain col) raws.

(** Two bytes that are the same ASCII letter up to case, or equal. *)
Definition caseVariant (a b : ascii) : bool :=
  ((nat_of_ascii a =? nat_of_ascii b)
   || (isUpperByte a && (nat_of_ascii b =? nat_of_ascii a + 32))
   || (isUpperByte b && (nat_of_ascii a =? nat_of_ascii b + 32)))%nat.

Fixpoint equalFoldASCII (s t : string) : bool :=
  match s, t with
  | EmptyString, EmptyString => true
  | String a s', String b t' => caseVariant a b && equalFoldASCII s' t'
  | _, _ => false
  end.

(** [AddChainElement] called once for each entry of [certificates], in
    order, the returned errors dropped: the receiver after the calls. *)
Definition addEach (col : PEMCollection)
    (certificates : list (option x509.Certificate)) : PEMCollection :=
  fold_left (fun acc c => fst (AddChainElement acc c)) certificates col.

(** The entries that are not nil. *)
Definition presentOf (certificates : list (option x509.Certificate))
  : list x509.Certificate :=
  flat_map (fun c => match c with Some x => [x] | None => [] end)
    certificates.

(** No block of the trace is labelled CERTIFICATE. *)
Definition noCertificate (step : bytes * pem.Block) : Prop :=
  pem.Type_ (snd step) <> "CERTIFICATE".

End Package.

(** ** An executable instance of the imports

    [GoPem] follows the textual format of encoding/pem: the base64 alphabet
    of RFC 4648 with padding, lines of 64 characters, and the BEGIN and END
    lines around them. It lets the functions above run on concrete bundles:
    well-formed blocks laid end to end, with or without text around them.
    What encoding/pem does with malformed blocks (an END line without its
    BEGIN line, a BEGIN line inside a header value) is not reproduced. *)

Module GoPem.

Definition lit (s : string) : bytes := list_byte_of_string s.

Definition nl : byte := x0a.
Definition cr : byte := x0d.
Definition tab : byte := x09.
Definition space : byte := x20.
Definition pad : byte := x3d.

Definition ofN (n : N) : byte :=
  match Byte.of_N n with
  | Some b => b
  | None => x00
  end.

(** *** base64.StdEncoding *)

Definition b64char (n : N) : byte :=
  ofN (if n <? 26 then 65 + n
       else if n <? 52 then 71 + n
       else if n <? 62 then n - 4
       else if n =? 62 then 43 else 47)%N.

Definition b64val (c : byte) : option N :=
  let n := Byte.to_N c in
  (if (65 <=? n) && (n <=? 90) then Some (n - 65)
   else if (97 <=? n) && (n <=? 122) then Some (n - 71)
   else if (48 <=? n) && (n <=? 57) then Some (n + 4)
   else if n =? 43 then Some 62
   else if n =? 47 then Some 63
   else None)%N.

Fixpoint base64Encode (src : bytes) : bytes :=
  match src with
  | a :: b :: c :: src' =>
      let v := (Byte.to_N a * 65536 + Byte.to_N b * 256 + Byte.to_N c)%N in
      b64char (v / 262144) :: b64char ((v / 4096) mod 64)
      :: b64char ((v / 64) mod 64) :: b64char (v mod 64)
      :: base64Encode src'
  | [a; b] =>
      let v := (Byte.to_N a * 65536 + Byte.to_N b * 256)%N in
      [b64char (v / 262144); b64char ((v / 4096) mod 64);
       b64char ((v / 64) mod 64); pad]
  | [a] =>
      let v := (Byte.to_N a * 65536)%N in
      [b64char (v / 262144); b64char ((v / 4096) mod 64); pad; pad]
  | [] => []
  end.

(** The quanta of an input from which CR and LF were already dropped. *)
Fixpoint base64Quanta (src : bytes) : option bytes :=
  match src with
  | [] => Some []
  | a :: b :: c :: d :: src' =>
      match b64val a, b64val b with
      | Some va, Some vb =>
          if Byte.eqb c pad then
            if Byte.eqb d pad then
              match src' with
              | [] => Some [ofN ((va * 64 + vb) / 16)]
              | _ => None
              end
            else None
          else
            match b64val c with
            | None => None
            | Some vc =>
                if Byte.eqb d pad then
                  match src' with
                  | [] =>
                      let v := (va * 4096 + vb * 64 + vc)%N in
                      Some [ofN (v / 1024); ofN ((v / 4) mod 256)]
                  | _ => None
                  end
                else
                  match b64val d, base64Quanta src' with
                  | Some vd, Some out =>
                      let v := (va * 262144 + vb * 4096 + vc * 64 + vd)%N in
                      Some (ofN (v / 65536) :: ofN ((v / 256) mod 256)
                            :: ofN (v mod 256) :: out)
                  | _, _ => None
                  end
            end
      | _, _ => None
      end
  | _ => None
  end.

Definition base64Decode (src : bytes) : option bytes :=
  base64Quanta
    (filter (fun c => negb (Byte.eqb c cr || Byte.eqb c nl)) src).

(** *** Helpers of package bytes *)

Fixpoint hasPrefix (s prefix : bytes) : bool :=
  match prefix, s with
  | [], _ => true
  | p :: prefix', c :: s' => Byte.eqb p c && hasPrefix s' prefix'
  | _ :: _, [] => false
  end.

Definition hasSuffix (s suffix : bytes) : bool :=
  hasPrefix (rev s) (rev suffix).

(** [bytes.Index] *)
Fixpoint indexOf (s sep : bytes) : option nat :=
  match s with
  | [] => if hasPrefix [] sep then Some 0 else None
  | _ :: s' =>
      if hasPrefix s sep then Some 0 else option_map S (indexOf s' sep)
  end.

(** [bytes.Cut] *)
Definition cut (s sep : bytes) : option (bytes * bytes) :=
  match indexOf s sep with
  | Some i => Some (firstn i s, skipn (i + List.length sep) s)
  | None => None
  end.

Fixpoint dropWhile (f : byte -> bool) (s : bytes) : bytes :=
  match s with
  | c :: s' => if f c then dropWhile f s' else s
  | [] => []
  end.

Definition isSpaceOrTab (c : byte) : bool :=
  Byte.eqb c space || Byte.eqb c tab.

Definition isSpace (c : byte) : bool :=
  isSpaceOrTab c || Byte.eqb c nl || Byte.eqb c cr
  || Byte.eqb c x0b || Byte.eqb c x0c.

(** [bytes.TrimRight(s, " \t")] *)
Definition trimRight (s : bytes) : bytes :=
  rev (dropWhile isSpaceOrTab (rev s)).

(** [bytes.TrimSpace], on ASCII white space *)
Definition trimSpace (s : bytes) : bytes :=
  rev (dropWhile isSpace (rev (dropWhile isSpace s))).

(** *** encoding/pem *)

Definition pemStart : bytes := nl :: lit "-----BEGIN ".
Definition pemEnd : bytes := nl :: lit "-----END ".
Definition pemEndOfLine : bytes := lit "-----".
Definition colon : bytes := lit ":".

Definition getLine (data : bytes) : bytes * bytes :=
  match indexOf data [nl] with
  | None => (trimRight data, [])
  | Some i =>
      let i' :=
        if (0 <? i)%nat && Byte.eqb (nth (i - 1) data x00) cr
        then i - 1 else i in
      (trimRight (firstn i' data), skipn (i + 1) data)
  end.

Definition removeSpacesAndTabs (data : bytes) : bytes :=
  filter (fun c => negb (isSpaceOrTab c)) data.

(** The lineBreaker: 64 characters, then a newline. *)
Fixpoint breakLines (fuel : nat) (s : bytes) : bytes :=
  match fuel with
  | O => []
  | S fuel' =>
      match s with
      | [] => []
      | _ => firstn 64 s ++ nl :: breakLines fuel' (skipn 64 s)
      end
  end.

Definition writeHeader (kv : string * string) : bytes :=
  lit (fst kv) ++ lit ": " ++ lit (snd kv) ++ [nl].

Fixpoint insertHeader (kv : string * string) (hs : list (string * string))
  : list (string * string) :=
  match hs with
  | [] => [kv]
  | h :: hs' =>
      if String.leb (fst kv) (fst h) then kv :: hs
      else h :: insertHeader kv hs'
  end.

(** Proc-Type first, the other keys sorted. *)
Definition orderHeaders (hs : list (string * string))
  : list (string * string) :=
  filter (fun kv => fst kv =? "Proc-Type") hs
  ++ fold_right insertHeader []
       (filter (fun kv => negb (fst kv =? "Proc-Type")) hs).

Definition EncodeToMemory (b : pem.Block) : bytes :=
  if existsb (fun kv => existsb (Byte.eqb x3a) (lit (fst kv)))
       (pem.Headers b)
  then []
  else
    let body := base64Encode (pem.Bytes b) in
    lit "-----BEGIN " ++ lit (pem.Type_ b) ++ lit "-----" ++ [nl]
    ++ match pem.Headers b with
       | [] => []
       | hs => List.concat (map writeHeader (orderHeaders hs)) ++ [nl]
       end
    ++ breakLines (List.length body) body
    ++ lit "-----END " ++ lit (pem.Type_ b) ++ lit "-----" ++ [nl].

(** The header loop of [Decode]; [None] is its [return nil, data]. *)
Fixpoint readHeaders (fuel : nat) (rest : bytes)
    (headers : list (string * string))
  : option (list (string * string) * bytes) :=
  match fuel with
  | O => None
  | S fuel' =>
      match rest with
      | [] => None
      | _ =>
          let (line, next) := getLine rest in
          match cut line colon with
          | None => Some (headers, rest)
          | Some (key, val) =>
              readHeaders fuel' next
                (headers ++ [(string_of_list_byte (trimSpace key),
                              string_of_list_byte (trimSpace val))])
          end
      end
  end.

(** The outer loop of [Decode]; every [continue] restarts on a shorter
    [rest]. *)
Fixpoint decodeFrom (fuel : nat) (rest : bytes)
  : option (pem.Block * bytes) :=
  match fuel with
  | O => None
  | S fuel' =>
      match (if hasPrefix rest (tl pemStart)
             then Some (skipn (List.length pemStart - 1) rest)
             else option_map snd (cut rest pemStart)) with
      | None => None
      | Some rest =>
          let (typeLine, rest) := getLine rest in
          if negb (hasSuffix typeLine pemEndOfLine) then decodeFrom fuel' rest
          else
            let typeLine :=
              firstn (List.length typeLine - List.length pemEndOfLine)
                typeLine in
            match readHeaders (S (List.length rest)) rest [] with
            | None => None
            | Some (headers, rest) =>
                match (match headers with
                       | [] =>
                           if hasPrefix rest (tl pemEnd)
                           then Some (0, List.length pemEnd - 1)
                           else option_map
                                  (fun i => (i, i + List.length pemEnd))
                                  (indexOf rest pemEnd)
                       | _ => option_map
                                (fun i => (i, i + List.length pemEnd))
                                (indexOf rest pemEnd)
                       end) with
                | None => decodeFrom fuel' rest
                | Some (endIndex, endTrailerIndex) =>
                    let endTrailer := skipn endTrailerIndex rest in
                    let endTrailerLen :=
                      List.length typeLine + List.length pemEndOfLine in
                    if (List.length endTrailer <? endTrailerLen)%nat
                    then decodeFrom fuel' rest
                    else
                      let restOfEndLine := skipn endTrailerLen endTrailer in
                      let endTrailer := firstn endTrailerLen endTrailer in
                      if negb (hasPrefix endTrailer typeLine)
                         || negb (hasSuffix endTrailer pemEndOfLine)
                      then decodeFrom fuel' rest
                      else if negb (List.length (fst (getLine restOfEndLine))
                                    =? 0)%nat
                      then decodeFrom fuel' rest
                      else
                        match base64Decode
                                (removeSpacesAndTabs (firstn endIndex rest))
                        with
                        | None => decodeFrom fuel' rest
                        | Some der =>
                            Some (pem.mkBlock (string_of_list_byte typeLine)
                                    headers der,
                                  snd (getLine
                                         (skipn
                                            (endIndex + List.length pemEnd - 1)
                                            rest)))
                        end
                end
            end
      end
  end.

Definition Decode (data : bytes) : option (pem.Block * bytes) :=
  decodeFrom (S (List.length data)) data.

End GoPem.

(** [GoStrings] is the rune-wise branch of strings.ToLower,
    [strings.Map(unicode.ToLower, s)]: the text is read as UTF-8, one rune
    at a time, an invalid byte being the rune U+FFFD, and each rune is
    written back lowered. unicode.ToLower is written out for ASCII, for the
    capital letters of Latin-1, and for U+0130, U+212A and U+212B; the first
    two are the runes outside ASCII whose lower case is an ASCII letter (i
    and k). Every other rune is written back as it is. *)

Module GoStrings.

Definition RuneError : N := 65533.

(** A continuation byte between [lo] and [hi]: its six payload bits. *)
Definition continuation (lo hi : N) (c : ascii) : option N :=
  let n := N_of_ascii c in
  if ((lo <=? n) && (n <=? hi))%N then Some (n mod 64)%N else None.

(** The continuation bytes [following] must supply after a first byte
    whose payload is [first]; the second byte is bounded by [lo] and
    [hi]. A sequence cut short or out of range is the rune U+FFFD, and only
    the first byte is consumed. *)
Fixpoint continue (following : nat) (lo hi : N) (first : N) (s : string)
  : option (N * string) :=
  match following with
  | O => Some (first, s)
  | S following' =>
      match s with
      | EmptyString => None
      | String c s' =>
          match continuation lo hi c with
          | None => None
          | Some bits =>
              continue following' 128 191 (first * 64 + bits)%N s'
          end
      end
  end.

(** utf8.DecodeRuneInString on a text that starts with byte [c]: the
    rune, and the text after it. *)
Definition decodeRune (c : ascii) (s : string) : N * string :=
  let b := N_of_ascii c in
  let sequence :=
    (if b <? 128 then Some (b, s)
     else if (194 <=? b) && (b <=? 223) then
       continue 1 128 191 (b mod 32) s
     else if b =? 224 then continue 2 160 191 (b mod 16) s
     else if b =? 237 then continue 2 128 159 (b mod 16) s
     else if (225 <=? b) && (b <=? 239) then
       continue 2 128 191 (b mod 16) s
     else if b =? 240 then continue 3 144 191 (b mod 8) s
     else if b =? 244 then continue 3 128 143 (b mod 8) s
     else if (241 <=? b) && (b <=? 243) then
       continue 3 128 191 (b mod 8) s
     else None)%N in
  match sequence with
  | Some decoded => decoded
  | None => (RuneError, s)
  end.

(** utf8.AppendRune *)
Definition encodeRune (r : N) : string :=
  let byte (n : N) := ascii_of_N n in
  (if r <? 128 then String (byte r) EmptyString
   else if r <? 2048 then
     String (byte (192 + r / 64))
       (String (byte (128 + r mod 64)) EmptyString)
   else if r <? 65536 then
     String (byte (224 + r / 4096))
       (String (byte (128 + (r / 64) mod 64))
          (String (byte (128 + r mod 64)) EmptyString))
   else
     String (byte (240 + r / 262144))
       (String (byte (128 + (r / 4096) mod 64))
          (String (byte (128 + (r / 64) mod 64))
             (String (byte (128 + r mod 64)) EmptyString))))%N.

(** unicode.ToLower, on the runes listed above. *)
Definition toLowerRune (r : N) : N :=
  (if (65 <=? r) && (r <=? 90) then r + 32
   else if (192 <=? r) && (r <=? 222) && negb (r =? 215) then r + 32
   else if r =? 304 then 105
   else if r =? 8490 then 107
   else if r =? 8491 then 229
   else r)%N.

(** strings.Map(unicode.ToLower, s); [fuel] bounds the number of runes. *)
Fixpoint mapToLower (fuel : nat) (s : string) : string :=
  match fuel with
  | O => EmptyString
  | S fuel' =>
      match s with
      | EmptyString => EmptyString
      | String c s' =>
          let (r, rest) := decodeRune c s' in
          (encodeRune (toLowerRune r) ++ mapToLower fuel' rest)%string
      end
  end.

Definition ToLowerRunes (s : string) : string :=
  mapToLower (String.length s) s.

End GoStrings.

(** The remaining imports, for running examples: a certificate parses when
    its DER starts with the SEQUENCE tag, a signer is the DER of its key, and
    the key encoders wrap it in an EC PRIVATE KEY or ENCRYPTED PRIVATE KEY
    block. *)
Definition exampleParse (label : string) (der : bytes) : result bytes :=
  match der with
  | x30 :: _ => Ok der
  | _ => Err (LibraryError label)
  end.

Definition exampleParseCertificate (der : bytes) : result x509.Certificate :=
  match exampleParse "x509: malformed certificate" der with
  | Ok raw => Ok (x509.mkCertificate raw)
  | Err e => Err e
  end.

Definition exampleKeyBlock (label : string) (key : option bytes)
  : result pem.Block :=
  match key with
  | Some der => Ok (pem.mkBlock label [] der)
  | None => Err (LibraryError "unable to find private key type")
  end.

#[local] Instance exampleLibrary : Library := {|
  Signer := bytes;
  ParsedKey := bytes;
  unicode_ToLower := GoStrings.ToLowerRunes;
  pem_Decode := GoPem.Decode;
  pem_EncodeToMemory := GoPem.EncodeToMemory;
  x509_ParseCertificate := exampleParseCertificate;
  x509_ParseECPrivateKey := exampleParse "x509: failed to parse EC private key";
  x509_ParsePKCS1PrivateKey := exampleParse "x509: failed to parse private key";
  x509_ParsePKCS8PrivateKey := exampleParse "x509: failed to parse private key";
  GetPrivateKeyPEMBock := fun key _ => exampleKeyBlock "EC PRIVATE KEY" key;
  GetEncryptedPrivateKeyPEMBock :=
    fun key _ _ => exampleKeyBlock "ENCRYPTED PRIVATE KEY" key
|}.

(** The text LATIN CAPITAL LETTER I WITH DOT ABOVE (U+0130, the bytes C4 B0
    in UTF-8) followed by GNORE: seven bytes, the first two not ASCII. *)
Definition dottedIgnore : string :=
  String (ascii_of_nat 196) (String (ascii_of_nat 176) "GNORE").

(** Sample payloads and bundles. *)
Definition der1 : bytes := [x30; x82; x01; x0a; x02; x01; x01].
Definition der2 : bytes := [x30; x03; x02; x01; x02].
Definition der3 : bytes := [x30; x00].
Definition derBad : bytes := [x04; x01; x00].
Definition derKey : bytes := [x30; x2e; x02; x01; x01; xff].

Definition cert1 : x509.Certificate := x509.mkCertificate der1.
Definition cert2 : x509.Certificate := x509.mkCertificate der2.
Definition cert3 : x509.Certificate := x509.mkCertificate der3.

Definition certText (der : bytes) : bytes :=
  GoPem.EncodeToMemory (GetCertificatePEMBlock der).

Definition keyBlock : pem.Block := pem.mkBlock "EC PRIVATE KEY" [] derKey.

Definition keyText : bytes := GoPem.EncodeToMemory keyBlock.

(** Three certificates. *)
Definition bundle3 : bytes := certText der1 ++ certText der2 ++ certText der3.

(** A certificate, a private key, and a second certificate after the key. *)
Definition bundleWithKey : bytes := certText der1 ++ keyText ++ certText der2.

(** A certificate block whose payload does not parse, between two that do. *)
Definition bundleBad : bytes := certText der1 ++ certText derBad ++ certText der2.

(** A private key alone, then text that is not PEM. *)
Definition bundleKeyOnly : bytes := keyText ++ GoPem.lit "trailing text".

(** A block of another label between a certificate and a key. *)
Definition bundleMixed : bytes :=
  certText der1
  ++ GoPem.EncodeToMemory (pem.mkBlock "CERTIFICATE REQUEST" [] der3)
  ++ certText der2 ++ keyText.

(** The collection [NewPEMCollection] builds from [cert1] and [derKey]. *)
Definition collection1 : PEMCollection :=
  mkPEMCollection (string_of_list_byte (certText der1))
    (string_of_list_byte keyText) [] "".

(** * Properties *)

(** ** ChainOptionFromString *)

Section PolicyProperties.
Context {lib : Library}.

Lemma nat_of_ascii_lt (c : ascii) : nat_of_ascii c < 256.
Proof. apply nat_ascii_bounded. Qed.

Lemma nat_of_ascii_inj (a b : ascii) :
  nat_of_ascii a = nat_of_ascii b -> a = b.
Proof.
  intro H. rewrite <- (ascii_nat_embedding a), <- (ascii_nat_embedding b).
  now rewrite H.
Qed.

Lemma isUpperByte_spec (c : ascii) :
  isUpperByte c = true <-> 65 <= nat_of_ascii c <= 90.
Proof.
  unfold isUpperByte. rewrite andb_true_iff, !Nat.leb_le. tauto.
Qed.

Lemma lowerByte_upper (c : ascii) :
  isUpperByte c = true ->
  nat_of_ascii (lowerByte c) = nat_of_ascii c + 32.
Proof.
  intro H. unfold lowerByte. rewrite H.
  apply isUpperByte_spec in H. apply nat_ascii_embedding. lia.
Qed.

Lemma lowerByte_other (c : ascii) :
  isUpperByte c = false -> lowerByte c = c.
Proof. intro H. unfold lowerByte. now rewrite H. Qed.

Lemma mapString_lowerByte_id (s : string) :
  existsString isUpperByte s = false -> mapString lowerByte s = s.
Proof.
  induction s as [|c s IH]; simpl; [reflexivity|].
  rewrite orb_false_iff. intros [Hc Hs].
  now rewrite (lowerByte_other _ Hc), (IH Hs).
Qed.

(** On pure ASCII input [ToLower] lowers byte by byte. *)
Lemma ToLower_ascii (s : string) :
  forallString isASCIIByte s = true -> ToLower s = mapString lowerByte s.
Proof.
  intro H. unfold ToLower. rewrite H.
  destruct (existsString isUpperByte s) eqn:E; simpl; [reflexivity|].
  symmetry. now apply mapString_lowerByte_id.
Qed.

Lemma caseVariant_lower (a b : ascii) :
  caseVariant a b = true -> isUpperByte b = false -> lowerByte a = b.
Proof.
  unfold caseVariant. rewrite !orb_true_iff, !andb_true_iff, !Nat.eqb_eq.
  intros [[H | [Ha H]] | [Hb _]] Hnb.
  - apply nat_of_ascii_inj in H. subst b. now apply lowerByte_other.
  - apply nat_of_ascii_inj. rewrite (lowerByte_upper _ Ha). now symmetry.
  - congruence.
Qed.

Lemma caseVariant_ascii (a b : ascii) :
  caseVariant a b = true -> isASCIIByte b = true -> isASCIIByte a = true.
Proof.
  unfold caseVariant, isASCIIByte.
  rewrite !orb_true_iff, !andb_true_iff, !Nat.eqb_eq, !Nat.ltb_lt.
  intros [[H | [Ha H]] | [Hb H]] Hb'.
  - lia.
  - lia.
  - apply isUpperByte_spec in Hb. lia.
Qed.

Lemma lowerByte_caseVariant (a : ascii) : caseVariant a (lowerByte a) = true.
Proof.
  unfold caseVariant. destruct (isUpperByte a) eqn:Ha.
  - rewrite (lowerByte_upper _ Ha), Nat.eqb_refl. simpl.
    now rewrite orb_true_r.
  - rewrite (lowerByte_other _ Ha), Nat.eqb_refl. reflexivity.
Qed.

(** A case variant of a lower-case ASCII text lowers to that text. *)
Lemma equalFold_ToLower (s t : string) :
  equalFoldASCII s t = true ->
  forallString isASCIIByte t = true ->
  existsString isUpperByte t = false ->
  ToLower s = t.
Proof.
  intros Hfold Hascii Hlow.
  assert (forallString isASCIIByte s = true /\ mapString lowerByte s = t)
    as [Hs Hmap].
  { revert t Hfold Hascii Hlow.
    induction s as [|a s IH]; intros [|b t]; simpl; try discriminate; auto.
    rewrite !andb_true_iff, orb_false_iff.
    intros [Hab Hst] [Hb Ht] [Hnb Hnt].
    destruct (IH t Hst Ht Hnt) as [IH1 IH2].
    rewrite (caseVariant_ascii _ _ Hab Hb), IH1.
    now rewrite (caseVariant_lower _ _ Hab Hnb), IH2. }
  now rewrite (ToLower_ascii _ Hs).
Qed.

Lemma mapString_lowerByte_fold (s : string) :
  equalFoldASCII s (mapString lowerByte s) = true.
Proof.
  induction s as [|a s IH]; simpl; [reflexivity|].
  now rewrite lowerByte_caseVariant, IH.
Qed.

Lemma ChainOptionFromString_cases (order : string) :
  (ToLower order = "root-first"
   /\ ChainOptionFromString order = ChainOptionRootFirst)
  \/ (ToLower order = "ignore"
      /\ ChainOptionFromString order = ChainOptionIgnore)
  \/ (ToLower order <> "root-first" /\ ToLower order <> "ignore"
      /\ ChainOptionFromString order = ChainOptionRootLast).
Proof.
  unfold ChainOptionFromString.
  destruct (String.eqb_spec (ToLower order) "root-first") as [E1|N1].
  - left. now split.
  - destruct (String.eqb_spec (ToLower order) "ignore") as [E2|N2].
    + right; left. now split.
    + right; right. now repeat split.
Qed.

(** C9, as amended. [ChainOptionFromString] returns a policy for every
    text: it compares the text lowered by strings.ToLower with "root-first"
    and "ignore". Every ASCII case variant of "root-first" gives
    [ChainOptionRootFirst], every ASCII case variant of "ignore" gives
    [ChainOptionIgnore], and every other ASCII text, the empty text
    included, gives [ChainOptionRootLast]. A text that is not pure ASCII is
    lowered rune by rune and gives [ChainOptionRootLast] exactly when its
    lowered form is neither word, so it is not enough for it to be a case
    variant of neither. *)
Theorem ChainOptionFromString_case_insensitive :
  (forall order : string,
      equalFoldASCII order "root-first" = true ->
      ChainOptionFromString order = ChainOptionRootFirst)
  /\ (forall order : string,
         equalFoldASCII order "ignore" = true ->
         ChainOptionFromString order = ChainOptionIgnore)
  /\ (forall order : string,
         forallString isASCIIByte order = true ->
         equalFoldASCII order "root-first" = false ->
         equalFoldASCII order "ignore" = false ->
         ChainOptionFromString order = ChainOptionRootLast)
  /\ (forall order : string,
         ToLower order <> "root-first" ->
         ToLower order <> "ignore" ->
         ChainOptionFromString order = ChainOptionRootLast)
  /\ (forall order order' : string,
         ToLower order = ToLower order' ->
         ChainOptionFromString order = ChainOptionFromString order')
  /\ ChainOptionFromString "" = ChainOptionRootLast
  /\ (forall order : string,
         ChainOptionFromString order = ChainOptionRootLast ->
         ToLower order <> "root-first" /\ ToLower order <> "ignore").
Proof.
  split; [|split; [|split; [|split; [|split; [|split; [reflexivity|]]]]]].
  - intros order H. unfold ChainOptionFromString.
    now rewrite (equalFold_ToLower order "root-first" H eq_refl eq_refl).
  - intros order H. unfold ChainOptionFromString.
    now rewrite (equalFold_ToLower order "ignore" H eq_refl eq_refl).
  - intros order Hascii H1 H2.
    destruct (ChainOptionFromString_cases order)
      as [[E _] | [[E _] | [_ [_ R]]]]; [exfalso | exfalso | exact R].
    + rewrite (ToLower_ascii _ Hascii) in E.
      pose proof (mapString_lowerByte_fold order) as F.
      rewrite E in F. congruence.
    + rewrite (ToLower_ascii _ Hascii) in E.
      pose proof (mapString_lowerByte_fold order) as F.
      rewrite E in F. congruence.
  - intros order H1 H2.
    destruct (ChainOptionFromString_cases order)
      as [[E _] | [[E _] | [_ [_ R]]]]; [contradiction | contradiction | exact R].
  - intros order order' H. unfold ChainOptionFromString. now rewrite H.
  - intros order H.
    destruct (ChainOptionFromString_cases order)
      as [[_ R] | [[_ R] | [N1 [N2 _]]]]; [congruence | congruence | now split].
Qed.

End PolicyProperties.

(** ** The bundle parser *)

Section ParserProperties.
Context {lib : Library}.

Lemma NewPEMCollection_certificate_only (c : x509.Certificate)
    (password : bytes) (format : list string) :
  NewPEMCollection (Some c) None password format
  = Ok (mkPEMCollection (pemOf c) "" [] "").
Proof. reflexivity. Qed.

Lemma addChainElements_ok (cas : list x509.Certificate) :
  forall col,
    addChainElements (Ok col) cas
    = Returns (Ok (setChain col (Chain col ++ map pemOf cas))).
Proof.
  induction cas as [|c cas IH]; intro col; simpl.
  - rewrite app_nil_r. now destruct col.
  - rewrite IH. unfold setChain; simpl. now rewrite <- app_assoc.
Qed.

Lemma collectionWithChain_ok (single : x509.Certificate)
    (others chain : list x509.Certificate) (chainOrder : ChainOption) :
  collectionWithChain single others chain chainOrder
  = Returns (Ok (mkPEMCollection (pemOf single) ""
                   (if (1 <? List.length chain)%nat
                       && negb (ChainOption_eqb chainOrder ChainOptionIgnore)
                    then map pemOf others else [])
                   "")).
Proof.
  unfold collectionWithChain.
  rewrite NewPEMCollection_certificate_only.
  destruct ((1 <? List.length chain)%nat
            && negb (ChainOption_eqb chainOrder ChainOptionIgnore));
    [|reflexivity].
  now rewrite addChainElements_ok.
Qed.

Lemma index_last (l : list x509.Certificate) (x : x509.Certificate) :
  index (l ++ [x]) (List.length (l ++ [x]) - 1) = Returns x.
Proof.
  unfold index. rewrite length_app; simpl.
  replace (List.length l + 1 - 1) with (List.length l) by lia.
  rewrite nth_error_app2 by lia. now rewrite Nat.sub_diag.
Qed.

Lemma firstn_all_but_last (l : list x509.Certificate) (x : x509.Certificate) :
  firstn (List.length (l ++ [x]) - 1) (l ++ [x]) = l.
Proof.
  rewrite length_app; simpl.
  replace (List.length l + 1 - 1) with (List.length l) by lia.
  rewrite firstn_app, Nat.sub_diag, firstn_all; simpl. apply app_nil_r.
Qed.

(** The code after the loop computes the positional rule: [singleOf] is
    stored as the certificate, [othersOf] as the chain. It neither fails nor
    panics. *)
Lemma assembleCollection_spec (chain : list x509.Certificate)
    (privPEM : string) (chainOrder : ChainOption) :
  assembleCollection chain privPEM chainOrder
  = Returns (Ok (mkPEMCollection
                   (match singleOf chain chainOrder with
                    | Some c => pemOf c
                    | None => ""
                    end)
                   privPEM
                   (map pemOf (othersOf chain chainOrder))
                   "")).
Proof.
  unfold assembleCollection.
  destruct chain as [|c cs].
  - destruct chainOrder; reflexivity.
  - destruct chainOrder.
    + simpl. rewrite collectionWithChain_ok. simpl.
      destruct cs; reflexivity.
    + destruct (@exists_last _ (c :: cs)) as [l [x E]]; [discriminate|].
      rewrite E.
      replace (0 <? List.length (l ++ [x]))%nat with true
        by (rewrite length_app; simpl; symmetry; apply Nat.ltb_lt; lia).
      rewrite index_last. simpl bindOutcome at 2.
      rewrite collectionWithChain_ok, firstn_all_but_last. simpl.
      rewrite removelast_last, map_app.
      change (map Some [x]) with [Some x]. rewrite last_last.
      rewrite length_app; simpl.
      destruct l as [|y l]; simpl; [reflexivity|].
      replace (List.length l + 1) with (S (List.length l)) by lia.
      reflexivity.
    + simpl. rewrite collectionWithChain_ok. simpl.
      now rewrite andb_false_r.
Qed.

Lemma certificatesOf_cons (step : bytes * pem.Block)
    (trace : list (bytes * pem.Block)) :
  certificatesOf (step :: trace)
  = certificatesOf [step] ++ certificatesOf trace.
Proof. unfold certificatesOf; simpl. now rewrite app_nil_r. Qed.

Lemma certificatesOf_app (t1 t2 : list (bytes * pem.Block)) :
  certificatesOf (t1 ++ t2) = certificatesOf t1 ++ certificatesOf t2.
Proof. unfold certificatesOf. apply flat_map_app. Qed.

Lemma keyTextOf_cons (step : bytes * pem.Block)
    (trace : list (bytes * pem.Block)) (privPEM : string) :
  keyTextOf (step :: trace) privPEM
  = keyTextOf trace
      (if pem.Type_ (snd step) =? "CERTIFICATE" then privPEM
       else if isPrivateKeyType (pem.Type_ (snd step))
            then string_of_list_byte (fst step)
            else privPEM).
Proof. reflexivity. Qed.

Lemma keyTextOf_app (t1 t2 : list (bytes * pem.Block)) (privPEM : string) :
  keyTextOf (t1 ++ t2) privPEM = keyTextOf t2 (keyTextOf t1 privPEM).
Proof. unfold keyTextOf. apply fold_left_app. Qed.

Lemma decodesTo_app (t1 t2 : list (bytes * pem.Block)) (a b c : bytes) :
  decodesTo a t1 b -> decodesTo b t2 c -> decodesTo a (t1 ++ t2) c.
Proof.
  induction 1 as [|data p remaining trace cursor Hd _ IH]; simpl; auto.
  intro H2. econstructor; eauto.
Qed.

(** The loop, run along a trace whose certificates all parse, arrives at
    the trace's cursor with the trace's certificates and key text. *)
Lemma scanBlocks_trace (data cursor : bytes)
    (trace : list (bytes * pem.Block)) :
  decodesTo data trace cursor ->
  Forall certificateParses trace ->
  forall fuel chain privPEM,
    scanBlocks (List.length trace + fuel) data chain privPEM
    = scanBlocks fuel cursor (chain ++ certificatesOf trace)
        (keyTextOf trace privPEM).
Proof.
  induction 1 as [data|data p remaining trace cursor Hd _ IH];
    intros Hall fuel chain privPEM.
  - simpl. now rewrite app_nil_r.
  - inversion Hall as [|? ? Hp Hrest]; subst.
    rewrite certificatesOf_cons, keyTextOf_cons.
    change (List.length ((data, p) :: trace) + fuel)
      with (S (List.length trace + fuel)).
    unfold certificateParses in Hp. unfold certificatesOf at 1.
    cbn [scanBlocks flat_map fst snd] in *. rewrite Hd.
    destruct (String.eqb_spec (pem.Type_ p) "CERTIFICATE") as [E|N].
    + destruct (Hp E) as [c Hc]. rewrite Hc.
      rewrite (IH Hrest). rewrite app_nil_r. now rewrite <- app_assoc.
    + destruct (isPrivateKeyType (pem.Type_ p));
        rewrite (IH Hrest); reflexivity.
Qed.

Lemma scanBlocks_bundle (data : bytes) (trace : list (bytes * pem.Block))
    (fuel : nat) :
  bundleOf data trace ->
  Forall certificateParses trace ->
  List.length trace < fuel ->
  scanBlocks fuel data [] ""
  = Returns (Ok (certificatesOf trace, keyTextOf trace "")).
Proof.
  intros [cursor [Htrace Hend]] Hall Hfuel.
  replace fuel with (List.length trace + S (fuel - List.length trace - 1))
    by lia.
  rewrite (scanBlocks_trace Htrace Hall). simpl. now rewrite Hend.
Qed.

(** What the parser returns on a bundle whose certificates all parse. *)
Lemma PEMCollectionFromBytes_bundle (data : bytes)
    (trace : list (bytes * pem.Block)) (fuel : nat)
    (chainOrder : ChainOption) :
  bundleOf data trace ->
  Forall certificateParses trace ->
  List.length trace < fuel ->
  PEMCollectionFromBytes fuel data chainOrder
  = Returns (Ok (mkPEMCollection
                   (match singleOf (certificatesOf trace) chainOrder with
                    | Some c => pemOf c
                    | None => ""
                    end)
                   (keyTextOf trace "")
                   (map pemOf (othersOf (certificatesOf trace) chainOrder))
                   "")).
Proof.
  intros Hb Hall Hfuel. unfold PEMCollectionFromBytes.
  rewrite (scanBlocks_bundle Hb Hall Hfuel). simpl.
  apply assembleCollection_spec.
Qed.

(** A trace made of certificate blocks only. *)
Lemma parsesAs_trace (trace : list (bytes * pem.Block))
    (certs : list x509.Certificate) :
  Forall2 parsesAs trace certs ->
  Forall certificateParses trace
  /\ certificatesOf trace = certs
  /\ (forall privPEM, keyTextOf trace privPEM = privPEM)
  /\ List.length trace = List.length certs.
Proof.
  induction 1 as [|[cursor p] c trace certs [Ht Hp] _ IH].
  - repeat split; auto.
  - destruct IH as [IH1 [IH2 [IH3 IH4]]]. simpl in Ht, Hp. repeat split.
    + constructor; [|assumption]. intros _. now exists c.
    + rewrite certificatesOf_cons, IH2. unfold certificatesOf.
      cbn [flat_map fst snd]. now rewrite Ht, Hp.
    + intro privPEM. rewrite keyTextOf_cons. cbn [fst snd].
      rewrite Ht. apply IH3.
    + simpl. now rewrite IH4.
Qed.

Lemma traceOf_bundle (fuel : nat) :
  forall data,
    List.length (traceOf fuel data) < fuel -> bundleOf data (traceOf fuel data).
Proof.
  induction fuel as [|fuel IH]; intros data H; simpl in *; [lia|].
  destruct (pem_Decode data) as [[p remaining]|] eqn:E.
  - simpl in H. destruct (IH remaining) as [cursor [Ht Hn]]; [lia|].
    exists cursor. split; [|assumption]. econstructor; eassumption.
  - exists data. split; [constructor | assumption].
Qed.

Lemma isPrivateKeyType_not_certificate (t : string) :
  isPrivateKeyType t = true -> (t =? "CERTIFICATE") = false.
Proof.
  intro H. destruct (String.eqb_spec t "CERTIFICATE") as [E|N];
    [subst t; discriminate H | reflexivity].
Qed.

Lemma keyTextOf_no_key (trace : list (bytes * pem.Block)) :
  Forall (fun step => ~ isPrivateKeyBlock step) trace ->
  forall privPEM, keyTextOf trace privPEM = privPEM.
Proof.
  induction 1 as [|[cursor p] trace Hn _ IH]; intro privPEM;
    [reflexivity|].
  rewrite keyTextOf_cons, IH. unfold isPrivateKeyBlock in Hn.
  cbn [fst snd] in *.
  destruct (pem.Type_ p =? "CERTIFICATE"); [reflexivity|].
  destruct (isPrivateKeyType (pem.Type_ p)); [now elim Hn | reflexivity].
Qed.

Lemma string_of_list_byte_app (a b : bytes) :
  string_of_list_byte (a ++ b)
  = (string_of_list_byte a ++ string_of_list_byte b)%string.
Proof.
  unfold string_of_list_byte.
  induction a as [|x a IH]; simpl; [reflexivity | now rewrite IH].
Qed.

(** C1. Under [ChainOptionRootLast], a bundle of N >= 1 blocks that all
    parse as certificates gives a collection whose certificate is the PEM
    text of the first certificate decoded and whose chain is the PEM text of
    the certificates 2..N in decode order, N-1 entries. *)
Theorem PEMCollectionFromBytes_RootLast :
  forall (certBytes : bytes) (trace : list (bytes * pem.Block))
         (first : x509.Certificate) (others : list x509.Certificate)
         (fuel : nat),
    bundleOf certBytes trace ->
    Forall2 parsesAs trace (first :: others) ->
    List.length trace < fuel ->
    exists collection,
      PEMCollectionFromBytes fuel certBytes ChainOptionRootLast
      = Returns (Ok collection)
      /\ Certificate collection = pemOf first
      /\ Chain collection = map pemOf others
      /\ List.length (Chain collection) = List.length trace - 1.
Proof.
  intros certBytes trace first others fuel Hb Hp Hfuel.
  destruct (parsesAs_trace Hp) as [Hall [Hc [_ Hlen]]].
  eexists. split.
  - apply (PEMCollectionFromBytes_bundle _ Hb Hall Hfuel).
  - rewrite Hc. simpl. repeat split.
    rewrite length_map, Hlen. simpl. lia.
Qed.

(** C2. Under [ChainOptionRootFirst], a bundle of N >= 1 blocks that all
    parse as certificates gives a collection whose certificate is the PEM
    text of the last certificate decoded and whose chain is the PEM text of
    the certificates 1..N-1 in decode order, N-1 entries. *)
Theorem PEMCollectionFromBytes_RootFirst :
  forall (certBytes : bytes) (trace : list (bytes * pem.Block))
         (firsts : list x509.Certificate) (final : x509.Certificate)
         (fuel : nat),
    bundleOf certBytes trace ->
    Forall2 parsesAs trace (firsts ++ [final]) ->
    List.length trace < fuel ->
    exists collection,
      PEMCollectionFromBytes fuel certBytes ChainOptionRootFirst
      = Returns (Ok collection)
      /\ Certificate collection = pemOf final
      /\ Chain collection = map pemOf firsts
      /\ List.length (Chain collection) = List.length trace - 1.
Proof.
  intros certBytes trace firsts final fuel Hb Hp Hfuel.
  destruct (parsesAs_trace Hp) as [Hall [Hc [_ Hlen]]].
  eexists. split.
  - apply (PEMCollectionFromBytes_bundle _ Hb Hall Hfuel).
  - rewrite Hc. cbn [Certificate Chain singleOf othersOf].
    rewrite removelast_last, map_app.
    change (map Some [final]) with [Some final]. rewrite last_last.
    repeat split.
    rewrite length_map, Hlen, length_app. simpl. lia.
Qed.

(** C3. Under [ChainOptionIgnore], a bundle of N >= 1 blocks that all
    parse as certificates gives a collection with an empty chain, whatever
    N is, and with the PEM text of the first certificate decoded as its
    certificate, the choice [ChainOptionRootLast] makes. *)
Theorem PEMCollectionFromBytes_Ignore :
  forall (certBytes : bytes) (trace : list (bytes * pem.Block))
         (first : x509.Certificate) (others : list x509.Certificate)
         (fuel : nat),
    bundleOf certBytes trace ->
    Forall2 parsesAs trace (first :: others) ->
    List.length trace < fuel ->
    exists collection,
      PEMCollectionFromBytes fuel certBytes ChainOptionIgnore
      = Returns (Ok collection)
      /\ Chain collection = []
      /\ Certificate collection = pemOf first
      /\ (forall rootLast,
             PEMCollectionFromBytes fuel certBytes ChainOptionRootLast
             = Returns (Ok rootLast) ->
             Certificate collection = Certificate rootLast).
Proof.
  intros certBytes trace first others fuel Hb Hp Hfuel.
  destruct (parsesAs_trace Hp) as [Hall [Hc [_ Hlen]]].
  eexists. split.
  - apply (PEMCollectionFromBytes_bundle _ Hb Hall Hfuel).
  - rewrite Hc. simpl. repeat split.
    intros rootLast H.
    rewrite (PEMCollectionFromBytes_bundle _ Hb Hall Hfuel), Hc in H.
    injection H as <-. reflexivity.
Qed.

(** C5. The private key of a parsed bundle is the raw input from the
    cursor at which the last private-key block was decoded up to the end of
    the input, converted to a string and not re-encoded: whatever follows
    that block in the buffer, further PEM blocks included, is part of it. *)
Theorem PEMCollectionFromBytes_private_key_text :
  forall (certBytes : bytes) (before after : list (bytes * pem.Block))
         (cursor remaining : bytes) (p : pem.Block)
         (chainOrder : ChainOption) (fuel : nat),
    decodesTo certBytes before cursor ->
    pem_Decode cursor = Some (p, remaining) ->
    isPrivateKeyBlock (cursor, p) ->
    bundleOf remaining after ->
    Forall (fun step => ~ isPrivateKeyBlock step) after ->
    Forall certificateParses (before ++ after) ->
    List.length before + List.length after + 1 < fuel ->
    exists collection,
      PEMCollectionFromBytes fuel certBytes chainOrder
      = Returns (Ok collection)
      /\ PrivateKey collection = string_of_list_byte cursor
      /\ (forall block : bytes,
             cursor = block ++ remaining ->
             PrivateKey collection
             = (string_of_list_byte block
                ++ string_of_list_byte remaining)%string).
Proof.
  intros certBytes before after cursor remaining p chainOrder fuel
    Hbefore Hd Hkey [final [Hafter Hend]] Hnokey Hall Hfuel.
  assert (Hb : bundleOf certBytes (before ++ (cursor, p) :: after)).
  { exists final. split; [|assumption].
    apply (decodesTo_app Hbefore). econstructor; eassumption. }
  assert (Hall' : Forall certificateParses (before ++ (cursor, p) :: after)).
  { apply Forall_app in Hall as [H1 H2]. apply Forall_app. split; [assumption|].
    constructor; [|assumption].
    intro E. unfold isPrivateKeyBlock in Hkey. simpl in *.
    apply isPrivateKeyType_not_certificate in Hkey.
    rewrite E in Hkey. discriminate. }
  assert (Hlen : List.length (before ++ (cursor, p) :: after) < fuel).
  { rewrite length_app. simpl. lia. }
  assert (Htext : keyTextOf (before ++ (cursor, p) :: after) ""
                  = string_of_list_byte cursor).
  { rewrite keyTextOf_app, keyTextOf_cons, (keyTextOf_no_key Hnokey).
    unfold isPrivateKeyBlock in Hkey. cbn [fst snd] in *.
    now rewrite (isPrivateKeyType_not_certificate _ Hkey), Hkey. }
  eexists. split.
  - apply (PEMCollectionFromBytes_bundle _ Hb Hall' Hlen).
  - cbn [PrivateKey]. rewrite Htext. split; [reflexivity|].
    intros block ->. apply string_of_list_byte_app.
Qed.

(** C8. When the loop decodes a block labelled CERTIFICATE whose payload
    x509.ParseCertificate rejects, the parser returns that error at once and
    no collection, under every policy, whatever valid blocks were decoded
    before it and whatever follows it in the buffer. *)
Theorem PEMCollectionFromBytes_bad_certificate :
  forall (certBytes : bytes) (before : list (bytes * pem.Block))
         (cursor remaining : bytes) (p : pem.Block) (err : error)
         (chainOrder : ChainOption) (fuel : nat),
    decodesTo certBytes before cursor ->
    Forall certificateParses before ->
    pem_Decode cursor = Some (p, remaining) ->
    pem.Type_ p = "CERTIFICATE" ->
    x509_ParseCertificate (pem.Bytes p) = Err err ->
    List.length before < fuel ->
    PEMCollectionFromBytes fuel certBytes chainOrder = Returns (Err err).
Proof.
  intros certBytes before cursor remaining p err chainOrder fuel
    Hbefore Hall Hd Ht Hp Hfuel.
  unfold PEMCollectionFromBytes.
  replace fuel with (List.length before + S (fuel - List.length before - 1))
    by lia.
  rewrite (scanBlocks_trace Hbefore Hall). simpl.
  now rewrite Hd, Ht, Hp.
Qed.

End ParserProperties.

(** ** Constructor, mutators and exporter *)

Section CollectionProperties.
Context {lib : Library}.

Lemma pemRoundTrips_certificate (raw : bytes) :
  pemRoundTrips (GetCertificatePEMBlock raw) ->
  isCertificatePEM (certificatePEM raw) raw.
Proof.
  intros [rest H]. exists (GetCertificatePEMBlock raw), rest.
  unfold certificatePEM. rewrite list_byte_of_string_of_list_byte.
  now repeat split.
Qed.

(** The chain loop of the exporter on a chain that satisfies the
    invariant: no nil block, the payloads appended in order. *)
Lemma appendChainDER_chain (chain : list string) (raws : list bytes) :
  Forall2 isCertificatePEM chain raws ->
  forall certificate,
    appendChainDER certificate chain = Returns (certificate ++ raws).
Proof.
  induction 1 as [|s raw chain raws [p [rest [Hd [_ Hb]]]] _ IH];
    intro certificate; simpl.
  - now rewrite app_nil_r.
  - rewrite Hd, IH, Hb, <- app_assoc. reflexivity.
Qed.

(** The chain loop is bounded by the chain: it returns or panics. *)
Lemma appendChainDER_bounded (chain : list string) :
  forall certificate, appendChainDER certificate chain <> OutOfFuel.
Proof.
  induction chain as [|s chain IH]; intro certificate; simpl;
    [discriminate|].
  destruct (pem_Decode (list_byte_of_string s)) as [[b rest]|];
    [apply IH | discriminate].
Qed.

(** A nil block for the certificate or for the private key is
    dereferenced. *)
Lemma ToTLSCertificate_panics (col : PEMCollection) :
  undecodable (Certificate col) \/ undecodable (PrivateKey col) ->
  ToTLSCertificate col = Panics.
Proof.
  unfold undecodable, ToTLSCertificate. intros [H | H].
  - now rewrite H.
  - destruct (pem_Decode (list_byte_of_string (Certificate col)))
      as [[b rest]|]; [|reflexivity].
    pose proof (appendChainDER_bounded (Chain col) ([] ++ [pem.Bytes b]))
      as Hb.
    destruct (appendChainDER ([] ++ [pem.Bytes b]) (Chain col));
      simpl; [now rewrite H | reflexivity | congruence].
Qed.

(** A collection built without a signing key has no private key text, and
    the exporter panics on it. *)
Lemma NewPEMCollection_without_key_panics
    (certificate : option x509.Certificate) (privateKeyPassword : bytes)
    (format : list string) :
  pem_Decode [] = None ->
  exists collection,
    NewPEMCollection certificate None privateKeyPassword format
    = Ok collection
    /\ PrivateKey collection = ""
    /\ ToTLSCertificate collection = Panics.
Proof.
  intro Hempty. eexists. split; [reflexivity|].
  assert (Hkey : PrivateKey
                   match certificate with
                   | Some c =>
                       setCertificate emptyPEMCollection
                         (certificatePEM (x509.Raw c))
                   | None => emptyPEMCollection
                   end = "") by (destruct certificate; reflexivity).
  split; [exact Hkey|].
  apply ToTLSCertificate_panics. right. unfold undecodable.
  now rewrite Hkey.
Qed.

(** C4. A collection built by [NewPEMCollection] from a certificate and a
    signing key, then exported by [ToTLSCertificate], gives a TLS
    certificate whose first DER entry is the [Raw] bytes of the certificate
    it was built from, as long as pem.Decode inverts pem.EncodeToMemory on
    the certificate block and reads the stored key text. *)
Theorem NewPEMCollection_ToTLSCertificate_leaf :
  forall (certificate : x509.Certificate) (privateKey : Signer)
         (privateKeyPassword : bytes) (format : list string)
         (collection : PEMCollection),
    NewPEMCollection (Some certificate) (Some privateKey)
      privateKeyPassword format = Ok collection ->
    pemRoundTrips (GetCertificatePEMBlock (x509.Raw certificate)) ->
    decodable (PrivateKey collection) ->
    exists t,
      ToTLSCertificate collection = Returns t
      /\ hd_error (tls.CertificateDER t) = Some (x509.Raw certificate)
      /\ tls.CertificateDER t = [x509.Raw certificate].
Proof.
  intros certificate privateKey password format collection Hnew
    [rest Hrt] [kp [krest Hkey]].
  unfold NewPEMCollection in Hnew.
  destruct (encodePrivateKey (Some privateKey) password
              (currentFormatOf format)) as [p|err]; [|discriminate].
  injection Hnew as <-.
  unfold ToTLSCertificate. cbn [Certificate Chain PrivateKey setPrivateKey
    setCertificate emptyPEMCollection] in *.
  unfold certificatePEM. rewrite list_byte_of_string_of_list_byte, Hrt.
  cbn [appendChainDER bindOutcome]. rewrite Hkey.
  eexists. split; [reflexivity|]. split; reflexivity.
Qed.

(** C6. [ToTLSCertificate] uses the result of pem.Decode without testing
    it for nil: on a collection whose certificate or private key text does
    not decode, the empty text included, it panics on the nil block; it
    returns only if both texts decode. *)
Theorem ToTLSCertificate_nil_dereference :
  forall col : PEMCollection,
    (undecodable (Certificate col) \/ undecodable (PrivateKey col) ->
     ToTLSCertificate col = Panics)
    /\ (pem_Decode [] = None ->
        Certificate col = "" \/ PrivateKey col = "" ->
        ToTLSCertificate col = Panics)
    /\ (forall t,
           ToTLSCertificate col = Returns t ->
           decodable (Certificate col) /\ decodable (PrivateKey col)).
Proof.
  intro col.
  pose proof (ToTLSCertificate_panics col) as Hpanic.
  split; [exact Hpanic|]. split.
  - intros Hempty [H | H]; apply Hpanic; [left | right];
      unfold undecodable; now rewrite H.
  - intros t H. unfold decodable, ToTLSCertificate in *.
    destruct (pem_Decode (list_byte_of_string (Certificate col)))
      as [[b rest]|]; [|discriminate].
    destruct (appendChainDER ([] ++ [pem.Bytes b]) (Chain col));
      simpl in H; try discriminate.
    destruct (pem_Decode (list_byte_of_string (PrivateKey col)))
      as [[kb krest]|]; [|discriminate].
    split; eauto.
Qed.

(** C7. On a collection that already holds a private key,
    [AddPrivateKey] returns the error about the single private key and
    leaves the collection as it was, every field unchanged. *)
Theorem AddPrivateKey_duplicate :
  forall (col : PEMCollection) (privateKey : option Signer)
         (privateKeyPassword : bytes) (format : list string),
    PrivateKey col <> "" ->
    AddPrivateKey col privateKey privateKeyPassword format
    = (col,
       Some (VcertError "the PEM Collection can only contain one private key")).
Proof.
  intros col privateKey password format H. unfold AddPrivateKey.
  destruct (String.eqb_spec (PrivateKey col) "") as [E|N];
    [contradiction | reflexivity].
Qed.

(** C10. The operations that extend the chain keep the invariant that
    every chain entry is the PEM text of a block labelled CERTIFICATE whose
    payload is the DER of the certificate added: [AddChainElement] appends
    the text of a CERTIFICATE block holding the certificate's [Raw] bytes,
    and [PEMCollectionFromBytes] fills the chain with such texts. Given
    that the PEM library reads back the CERTIFICATE blocks it writes for
    these certificates, the chain loop of the exporter then never meets a
    nil block. *)
Theorem chain_entries_are_certificate_PEM :
  (forall (col : PEMCollection) (raws : list bytes)
          (certificate : x509.Certificate),
      chainHolds col raws ->
      pemRoundTrips (GetCertificatePEMBlock (x509.Raw certificate)) ->
      exists col',
        AddChainElement col (Some certificate) = (col', None)
        /\ Chain col'
           = Chain col
             ++ [string_of_list_byte
                   (pem_EncodeToMemory
                      (pem.mkBlock "CERTIFICATE" []
                         (x509.Raw certificate)))]
        /\ chainHolds col' (raws ++ [x509.Raw certificate]))
  /\ (forall (certBytes : bytes) (trace : list (bytes * pem.Block))
             (chainOrder : ChainOption) (fuel : nat),
         bundleOf certBytes trace ->
         Forall certificateParses trace ->
         Forall (fun c => pemRoundTrips (GetCertificatePEMBlock (x509.Raw c)))
           (certificatesOf trace) ->
         List.length trace < fuel ->
         exists collection,
           PEMCollectionFromBytes fuel certBytes chainOrder
           = Returns (Ok collection)
           /\ chainHolds collection
                (map x509.Raw (othersOf (certificatesOf trace) chainOrder)))
  /\ (forall (col : PEMCollection) (raws : list bytes),
         chainHolds col raws ->
         forall certificate : list bytes,
           appendChainDER certificate (Chain col)
           = Returns (certificate ++ raws)).
Proof.
  split; [|split].
  - intros col raws certificate Hinv Hrt.
    exists (setChain col (Chain col ++ [pemOf certificate])).
    split; [reflexivity|]. split; [reflexivity|].
    unfold chainHolds. cbn [Chain setChain].
    apply Forall2_app; [exact Hinv|].
    constructor; [|constructor].
    now apply pemRoundTrips_certificate.
  - intros certBytes trace chainOrder fuel Hb Hall Hrt Hfuel.
    eexists. split.
    + apply (PEMCollectionFromBytes_bundle _ Hb Hall Hfuel).
    + unfold chainHolds. cbn [Chain].
      assert (Hsub : Forall
                (fun c => pemRoundTrips (GetCertificatePEMBlock (x509.Raw c)))
                (othersOf (certificatesOf trace) chainOrder)).
      { rewrite Forall_forall in *. intros c Hin. apply Hrt.
        destruct chainOrder; simpl in Hin.
        - destruct (certificatesOf trace); simpl in *; [contradiction|].
          now right.
        - destruct (@exists_last _ (certificatesOf trace)) as [l [x E]].
          + intro E. rewrite E in Hin. contradiction.
          + rewrite E in *. rewrite removelast_last in Hin.
            apply in_or_app. now left.
        - contradiction. }
      induction Hsub as [|c l Hc _ IH]; simpl; constructor;
        [now apply pemRoundTrips_certificate | exact IH].
  - intros col raws Hinv certificate.
    now apply appendChainDER_chain.
Qed.

End CollectionProperties.

(** * The properties on sample bundles *)

Section Samples.

Lemma PEMCollectionFromBytes_RootLast_witness :
  exists collection,
    PEMCollectionFromBytes 4 bundle3 ChainOptionRootLast
    = Returns (Ok collection)
    /\ Certificate collection = pemOf cert1
    /\ Chain collection = map pemOf [cert2; cert3]
    /\ List.length (Chain collection) = List.length (traceOf 8 bundle3) - 1.
Proof.
  apply (@PEMCollectionFromBytes_RootLast exampleLibrary
           bundle3 (traceOf 8 bundle3) cert1 [cert2; cert3] 4).
  - apply traceOf_bundle. vm_compute. lia.
  - vm_compute. repeat constructor.
  - vm_compute. lia.
Defined.

Lemma PEMCollectionFromBytes_RootFirst_witness :
  exists collection,
    PEMCollectionFromBytes 4 bundle3 ChainOptionRootFirst
    = Returns (Ok collection)
    /\ Certificate collection = pemOf cert3
    /\ Chain collection = map pemOf [cert1; cert2]
    /\ List.length (Chain collection) = List.length (traceOf 8 bundle3) - 1.
Proof.
  apply (@PEMCollectionFromBytes_RootFirst exampleLibrary
           bundle3 (traceOf 8 bundle3) [cert1; cert2] cert3 4).
  - apply traceOf_bundle. vm_compute. lia.
  - vm_compute. repeat constructor.
  - vm_compute. lia.
Defined.

Lemma PEMCollectionFromBytes_Ignore_witness :
  exists collection,
    PEMCollectionFromBytes 4 bundle3 ChainOptionIgnore
    = Returns (Ok collection)
    /\ Chain collection = []
    /\ Certificate collection = pemOf cert1
    /\ (forall rootLast,
           PEMCollectionFromBytes 4 bundle3 ChainOptionRootLast
           = Returns (Ok rootLast) ->
           Certificate collection = Certificate rootLast).
Proof.
  apply (@PEMCollectionFromBytes_Ignore exampleLibrary
           bundle3 (traceOf 8 bundle3) cert1 [cert2; cert3] 4).
  - apply traceOf_bundle. vm_compute. lia.
  - vm_compute. repeat constructor.
  - vm_compute. lia.
Defined.

Lemma NewPEMCollection_ToTLSCertificate_leaf_witness :
  NewPEMCollection (Some cert1) (Some derKey) [] [] = Ok collection1
  /\ exists t,
       ToTLSCertificate collection1 = Returns t
       /\ hd_error (tls.CertificateDER t) = Some der1
       /\ tls.CertificateDER t = [der1].
Proof.
  split; [vm_compute; reflexivity|].
  apply (@NewPEMCollection_ToTLSCertificate_leaf exampleLibrary
           cert1 derKey [] [] collection1).
  - vm_compute. reflexivity.
  - exists []. vm_compute. reflexivity.
  - exists keyBlock, []. vm_compute. reflexivity.
Defined.

Lemma PEMCollectionFromBytes_private_key_text_witness :
  exists collection,
    PEMCollectionFromBytes 4 bundleWithKey ChainOptionRootLast
    = Returns (Ok collection)
    /\ PrivateKey collection
       = string_of_list_byte (keyText ++ certText der2)
    /\ (forall block : bytes,
           keyText ++ certText der2 = block ++ certText der2 ->
           PrivateKey collection
           = (string_of_list_byte block
              ++ string_of_list_byte (certText der2))%string).
Proof.
  apply (@PEMCollectionFromBytes_private_key_text exampleLibrary
           bundleWithKey
           [(bundleWithKey, GetCertificatePEMBlock der1)]
           [(certText der2, GetCertificatePEMBlock der2)]
           (keyText ++ certText der2) (certText der2) keyBlock
           ChainOptionRootLast 4).
  - apply decodesTo_step with (remaining := keyText ++ certText der2).
    + vm_compute. reflexivity.
    + apply decodesTo_here.
  - vm_compute. reflexivity.
  - vm_compute. reflexivity.
  - exists []. split.
    + apply decodesTo_step with (remaining := []).
      * vm_compute. reflexivity.
      * apply decodesTo_here.
    + vm_compute. reflexivity.
  - repeat constructor. vm_compute. discriminate.
  - repeat constructor; intros _; [exists cert1 | exists cert2];
      vm_compute; reflexivity.
  - simpl. lia.
Defined.

Lemma PEMCollectionFromBytes_bad_certificate_witness :
  PEMCollectionFromBytes 4 bundleBad ChainOptionRootFirst
  = Returns (Err (LibraryError "x509: malformed certificate")).
Proof.
  apply (@PEMCollectionFromBytes_bad_certificate exampleLibrary
           bundleBad
           [(bundleBad, GetCertificatePEMBlock der1)]
           (certText derBad ++ certText der2) (certText der2)
           (GetCertificatePEMBlock derBad)
           (LibraryError "x509: malformed certificate")
           ChainOptionRootFirst 4).
  - apply decodesTo_step with (remaining := certText derBad ++ certText der2).
    + vm_compute. reflexivity.
    + apply decodesTo_here.
  - repeat constructor. intros _. exists cert1. vm_compute. reflexivity.
  - vm_compute. reflexivity.
  - reflexivity.
  - vm_compute. reflexivity.
  - simpl. lia.
Defined.

Lemma ToTLSCertificate_nil_dereference_witness :
  ToTLSCertificate emptyPEMCollection = Panics
  /\ ToTLSCertificate (setPrivateKey collection1 "") = Panics
  /\ ToTLSCertificate (setCertificate collection1 "not PEM") = Panics
  /\ decodable (Certificate collection1)
  /\ decodable (PrivateKey collection1).
Proof.
  split; [|split; [|split]].
  - apply (proj1 (proj2 (@ToTLSCertificate_nil_dereference exampleLibrary
                           emptyPEMCollection))).
    + vm_compute. reflexivity.
    + left. reflexivity.
  - apply (proj1 (proj2 (@ToTLSCertificate_nil_dereference exampleLibrary
                           (setPrivateKey collection1 "")))).
    + vm_compute. reflexivity.
    + right. reflexivity.
  - apply (proj1 (@ToTLSCertificate_nil_dereference exampleLibrary
                    (setCertificate collection1 "not PEM"))).
    left. vm_compute. reflexivity.
  - apply (proj2 (proj2 (@ToTLSCertificate_nil_dereference exampleLibrary
                           collection1))
             (tls.mkCertificate [der1] (Some (Some derKey)))).
    vm_compute. reflexivity.
Defined.

Lemma AddPrivateKey_duplicate_witness :
  AddPrivateKey collection1 (Some derKey) [] []
  = (collection1,
     Some (VcertError "the PEM Collection can only contain one private key")).
Proof.
  apply (@AddPrivateKey_duplicate exampleLibrary
           collection1 (Some derKey) [] []).
  vm_compute. discriminate.
Defined.

Lemma ChainOptionFromString_case_insensitive_witness :
  ChainOptionFromString "ROOT-FIRST" = ChainOptionRootFirst
  /\ ChainOptionFromString "Root-First" = ChainOptionRootFirst
  /\ ChainOptionFromString "root-first" = ChainOptionRootFirst
  /\ ChainOptionFromString "IgNoRe" = ChainOptionIgnore
  /\ ChainOptionFromString "bogus" = ChainOptionRootLast
  /\ ChainOptionFromString "root_first" = ChainOptionRootLast
  /\ ChainOptionFromString "Root-First" = ChainOptionFromString "rOOT-fIRST"
  /\ ChainOptionFromString dottedIgnore = ChainOptionFromString "IGNORE".
Proof.
  destruct (@ChainOptionFromString_case_insensitive exampleLibrary)
    as [HF [HI [HL [HL' [HE _]]]]].
  split; [apply HF; reflexivity|].
  split; [apply HF; reflexivity|].
  split; [apply HF; reflexivity|].
  split; [apply HI; reflexivity|].
  split; [apply HL; reflexivity|].
  split; [apply HL'; vm_compute; discriminate|].
  split; [apply HE; reflexivity|].
  apply HE. vm_compute. reflexivity.
Defined.

Lemma chain_entries_are_certificate_PEM_witness :
  (exists col',
      AddChainElement collection1 (Some cert2) = (col', None)
      /\ Chain col'
         = Chain collection1
           ++ [string_of_list_byte
                 (pem_EncodeToMemory (pem.mkBlock "CERTIFICATE" [] der2))]
      /\ chainHolds col' ([] ++ [der2]))
  /\ (exists collection,
         PEMCollectionFromBytes 4 bundle3 ChainOptionRootFirst
         = Returns (Ok collection)
         /\ chainHolds collection
              (map x509.Raw
                 (othersOf (certificatesOf (traceOf 8 bundle3))
                    ChainOptionRootFirst)))
  /\ appendChainDER [der1] (Chain (setChain collection1 []))
     = Returns ([der1] ++ []).
Proof.
  destruct (@chain_entries_are_certificate_PEM exampleLibrary)
    as [Hadd [Hparse Hloop]].
  split; [|split].
  - apply (Hadd collection1 [] cert2).
    + constructor.
    + exists []. vm_compute. reflexivity.
  - apply (Hparse bundle3 (traceOf 8 bundle3) ChainOptionRootFirst 4).
    + apply traceOf_bundle. vm_compute. lia.
    + vm_compute. repeat constructor; intros _; eexists; reflexivity.
    + replace (certificatesOf (traceOf 8 bundle3))
        with [cert1; cert2; cert3] by (vm_compute; reflexivity).
      repeat constructor; exists []; vm_compute; reflexivity.
    + vm_compute. lia.
  - apply (Hloop (setChain collection1 []) []). constructor.
Defined.

End Samples.

(** * Further properties of the bundle parser *)

Section ParserCoverage.
Context {lib : Library}.

(** The loop returns or runs out of fuel: nothing in it can panic. *)
Lemma scanBlocks_no_panic (fuel : nat) :
  forall current chain privPEM,
    scanBlocks fuel current chain privPEM <> Panics.
Proof.
  induction fuel as [|fuel IH]; intros current chain privPEM; simpl;
    [discriminate|].
  destruct (pem_Decode current) as [[p remaining]|]; [|discriminate].
  destruct (pem.Type_ p =? "CERTIFICATE").
  - destruct (x509_ParseCertificate (pem.Bytes p)); [apply IH | discriminate].
  - destruct (isPrivateKeyType (pem.Type_ p)); apply IH.
Qed.

(** An error of the loop is the parse error of a decoded CERTIFICATE
    block, the first one that does not parse. *)
Lemma scanBlocks_error_inv (fuel : nat) :
  forall current chain privPEM err,
    scanBlocks fuel current chain privPEM = Returns (Err err) ->
    exists before cursor p remaining,
      decodesTo current before cursor
      /\ Forall certificateParses before
      /\ List.length before < fuel
      /\ pem_Decode cursor = Some (p, remaining)
      /\ pem.Type_ p = "CERTIFICATE"
      /\ x509_ParseCertificate (pem.Bytes p) = Err err.
Proof.
  induction fuel as [|fuel IH]; intros current chain privPEM err H;
    simpl in H; [discriminate|].
  destruct (pem_Decode current) as [[p remaining]|] eqn:Hd; [|discriminate].
  assert (Hext : forall chain' privPEM',
             scanBlocks fuel remaining chain' privPEM' = Returns (Err err) ->
             certificateParses (current, p) ->
             exists before cursor p' remaining',
               decodesTo current before cursor
               /\ Forall certificateParses before
               /\ List.length before < S fuel
               /\ pem_Decode cursor = Some (p', remaining')
               /\ pem.Type_ p' = "CERTIFICATE"
               /\ x509_ParseCertificate (pem.Bytes p') = Err err).
  { intros chain' privPEM' Hrec Hok.
    destruct (IH _ _ _ _ Hrec)
      as [before [cursor [p' [remaining' [Ht [Hall [Hlen Hrest]]]]]]].
    exists ((current, p) :: before), cursor, p', remaining'.
    split; [econstructor; eassumption|].
    split; [constructor; assumption|].
    split; [simpl; lia | exact Hrest]. }
  destruct (String.eqb_spec (pem.Type_ p) "CERTIFICATE") as [E|N].
  - destruct (x509_ParseCertificate (pem.Bytes p)) as [cert|e] eqn:Hp.
    + apply (Hext _ _ H). intros _. now exists cert.
    + injection H as ->.
      exists [], current, p, remaining.
      repeat split; auto; [constructor | simpl; lia].
  - destruct (isPrivateKeyType (pem.Type_ p));
      apply (Hext _ _ H); intro E; now elim N.
Qed.

(** A successful run of the loop went through a whole bundle whose
    CERTIFICATE blocks all parse. *)
Lemma scanBlocks_ok_inv (fuel : nat) :
  forall current chain privPEM chain' privPEM',
    scanBlocks fuel current chain privPEM = Returns (Ok (chain', privPEM')) ->
    exists trace,
      bundleOf current trace
      /\ Forall certificateParses trace
      /\ List.length trace < fuel
      /\ chain' = chain ++ certificatesOf trace
      /\ privPEM' = keyTextOf trace privPEM.
Proof.
  induction fuel as [|fuel IH]; intros current chain privPEM chain' privPEM' H;
    simpl in H; [discriminate|].
  destruct (pem_Decode current) as [[p remaining]|] eqn:Hd.
  - assert (Hext : forall chain0 privPEM0,
               scanBlocks fuel remaining chain0 privPEM0
               = Returns (Ok (chain', privPEM')) ->
               certificateParses (current, p) ->
               chain0 = chain ++ certificatesOf [(current, p)] ->
               privPEM0 = keyTextOf [(current, p)] privPEM ->
               exists trace,
                 bundleOf current trace
                 /\ Forall certificateParses trace
                 /\ List.length trace < S fuel
                 /\ chain' = chain ++ certificatesOf trace
                 /\ privPEM' = keyTextOf trace privPEM).
    { intros chain0 privPEM0 Hrec Hok Hc Hk.
      destruct (IH _ _ _ _ _ Hrec)
        as [trace [[cursor [Ht Hend]] [Hall [Hlen [Hc' Hk']]]]].
      exists ((current, p) :: trace).
      split; [exists cursor; split; [econstructor; eassumption | exact Hend]|].
      split; [constructor; assumption|].
      split; [simpl; lia|].
      split.
      - rewrite certificatesOf_cons, app_assoc, <- Hc. exact Hc'.
      - change ((current, p) :: trace) with ([(current, p)] ++ trace).
        rewrite keyTextOf_app, <- Hk. exact Hk'. }
    unfold certificatesOf, keyTextOf in Hext. cbn [flat_map fold_left fst snd]
      in Hext.
    destruct (String.eqb_spec (pem.Type_ p) "CERTIFICATE") as [E|N].
    + destruct (x509_ParseCertificate (pem.Bytes p)) as [cert|e] eqn:Hp;
        [|discriminate].
      apply (Hext _ _ H); try reflexivity.
      intros _. now exists cert.
    + destruct (isPrivateKeyType (pem.Type_ p));
        (apply (Hext _ _ H); try reflexivity; try (now rewrite !app_nil_r);
         intro E; now elim N).
  - injection H as <- <-. exists [].
    split; [exists current; split; [constructor | exact Hd]|].
    split; [constructor|]. split; [simpl; lia|].
    split; [now rewrite app_nil_r | reflexivity].
Qed.

Lemma certificatesOf_noCertificate (trace : list (bytes * pem.Block)) :
  Forall noCertificate trace ->
  certificatesOf trace = [] /\ Forall certificateParses trace.
Proof.
  induction 1 as [|[cursor p] trace Hn _ [IH1 IH2]]; [now split|].
  unfold noCertificate in Hn. cbn [snd] in Hn. split.
  - rewrite certificatesOf_cons, IH1. unfold certificatesOf.
    cbn [flat_map snd].
    destruct (String.eqb_spec (pem.Type_ p) "CERTIFICATE");
      [contradiction | reflexivity].
  - constructor; [|assumption]. intro E. contradiction.
Qed.

Lemma last_pemOf (certs : list x509.Certificate) :
  match last (map Some certs) None with
  | Some c => pemOf c
  | None => ""
  end = last (map pemOf certs) "".
Proof.
  induction certs as [|c [|c' certs] IH]; try reflexivity. exact IH.
Qed.

Lemma removelast_pemOf (certs : list x509.Certificate) :
  map pemOf (removelast certs) = removelast (map pemOf certs).
Proof.
  induction certs as [|c [|c' certs] IH]; try reflexivity.
  change (removelast (c :: c' :: certs)) with (c :: removelast (c' :: certs)).
  cbn [map]. rewrite IH. reflexivity.
Qed.

(** X1. A bundle without any block labelled CERTIFICATE is not an error:
    under every policy the parser returns a collection with no certificate
    and an empty chain, whose private key is the text of the last key block
    met; with no block at all it is the empty collection. *)
Theorem PEMCollectionFromBytes_no_certificate :
  forall (certBytes : bytes) (trace : list (bytes * pem.Block))
         (chainOrder : ChainOption) (fuel : nat),
    bundleOf certBytes trace ->
    Forall noCertificate trace ->
    List.length trace < fuel ->
    PEMCollectionFromBytes fuel certBytes chainOrder
    = Returns (Ok (mkPEMCollection "" (keyTextOf trace "") [] ""))
    /\ (trace = [] ->
        PEMCollectionFromBytes fuel certBytes chainOrder
        = Returns (Ok emptyPEMCollection)).
Proof.
  intros certBytes trace chainOrder fuel Hb Hn Hfuel.
  destruct (certificatesOf_noCertificate Hn) as [Hc Hall].
  assert (H : PEMCollectionFromBytes fuel certBytes chainOrder
              = Returns (Ok (mkPEMCollection "" (keyTextOf trace "") [] ""))).
  { rewrite (PEMCollectionFromBytes_bundle _ Hb Hall Hfuel), Hc.
    destruct chainOrder; reflexivity. }
  split; [exact H|]. intros ->. exact H.
Qed.

(** X2. On any bundle whose CERTIFICATE blocks all parse, whatever other
    blocks it holds, the parser returns a collection: the certificate is the
    first certificate decoded (the last under [ChainOptionRootFirst]), the
    chain holds the others in decode order (none under [ChainOptionIgnore]),
    the private key is the text from the last key block on, the CSR is
    empty. Blocks of any other label leave no trace in it. *)
Theorem PEMCollectionFromBytes_mixed_bundle :
  forall (certBytes : bytes) (trace : list (bytes * pem.Block))
         (chainOrder : ChainOption) (fuel : nat),
    bundleOf certBytes trace ->
    Forall certificateParses trace ->
    List.length trace < fuel ->
    exists collection,
      PEMCollectionFromBytes fuel certBytes chainOrder
      = Returns (Ok collection)
      /\ Certificate collection
         = match chainOrder with
           | ChainOptionRootFirst =>
               last (map pemOf (certificatesOf trace)) ""
           | _ => hd "" (map pemOf (certificatesOf trace))
           end
      /\ Chain collection
         = match chainOrder with
           | ChainOptionRootFirst =>
               removelast (map pemOf (certificatesOf trace))
           | ChainOptionRootLast => tl (map pemOf (certificatesOf trace))
           | ChainOptionIgnore => []
           end
      /\ PrivateKey collection = keyTextOf trace ""
      /\ CSR collection = "".
Proof.
  intros certBytes trace chainOrder fuel Hb Hall Hfuel.
  eexists. split; [apply (PEMCollectionFromBytes_bundle _ Hb Hall Hfuel)|].
  cbn [Certificate Chain PrivateKey CSR].
  generalize (certificatesOf trace) as certs. intro certs.
  repeat split.
  - destruct chainOrder; simpl; try (destruct certs; reflexivity).
    apply last_pemOf.
  - destruct chainOrder; simpl; try (destruct certs; reflexivity).
    apply removelast_pemOf.
Qed.

(** X3. [ChainOptionRootLast] and [ChainOptionRootFirst] keep every
    certificate of the bundle, in decode order: the certificate followed by
    the chain under the first, the chain followed by the certificate under
    the second, are the PEM texts of all the certificates decoded. The
    policy moves the certificate, it reorders nothing. *)
Theorem PEMCollectionFromBytes_keeps_every_certificate :
  forall (certBytes : bytes) (trace : list (bytes * pem.Block)) (fuel : nat),
    bundleOf certBytes trace ->
    Forall certificateParses trace ->
    certificatesOf trace <> [] ->
    List.length trace < fuel ->
    exists rootLast rootFirst,
      PEMCollectionFromBytes fuel certBytes ChainOptionRootLast
      = Returns (Ok rootLast)
      /\ PEMCollectionFromBytes fuel certBytes ChainOptionRootFirst
         = Returns (Ok rootFirst)
      /\ Certificate rootLast :: Chain rootLast
         = map pemOf (certificatesOf trace)
      /\ Chain rootFirst ++ [Certificate rootFirst]
         = map pemOf (certificatesOf trace)
      /\ Certificate rootLast :: Chain rootLast
         = Chain rootFirst ++ [Certificate rootFirst].
Proof.
  intros certBytes trace fuel Hb Hall Hne Hfuel.
  do 2 eexists.
  split; [apply (PEMCollectionFromBytes_bundle _ Hb Hall Hfuel)|].
  split; [apply (PEMCollectionFromBytes_bundle _ Hb Hall Hfuel)|].
  cbn [Certificate Chain].
  assert (HL : forall certs : list x509.Certificate,
             certs <> [] ->
             match singleOf certs ChainOptionRootLast with
             | Some c => pemOf c
             | None => ""
             end :: map pemOf (othersOf certs ChainOptionRootLast)
             = map pemOf certs).
  { intros [|c cs] H; [now elim H | reflexivity]. }
  assert (HF : forall certs : list x509.Certificate,
             certs <> [] ->
             map pemOf (othersOf certs ChainOptionRootFirst)
             ++ [match singleOf certs ChainOptionRootFirst with
                 | Some c => pemOf c
                 | None => ""
                 end]
             = map pemOf certs).
  { intros certs H. destruct (exists_last H) as [l [x ->]].
    cbn [singleOf othersOf]. rewrite removelast_last, !map_app.
    change (map Some [x]) with [Some x]. now rewrite last_last. }
  rewrite (HL _ Hne), (HF _ Hne). repeat split.
Qed.

(** X4. [ChainOptionIgnore] returns what [ChainOptionRootLast] returns
    with the chain emptied: same certificate, same private key. *)
Theorem PEMCollectionFromBytes_Ignore_drops_chain :
  forall (certBytes : bytes) (trace : list (bytes * pem.Block)) (fuel : nat),
    bundleOf certBytes trace ->
    Forall certificateParses trace ->
    List.length trace < fuel ->
    exists rootLast,
      PEMCollectionFromBytes fuel certBytes ChainOptionRootLast
      = Returns (Ok rootLast)
      /\ PEMCollectionFromBytes fuel certBytes ChainOptionIgnore
         = Returns (Ok (setChain rootLast [])).
Proof.
  intros certBytes trace fuel Hb Hall Hfuel.
  eexists.
  split; [apply (PEMCollectionFromBytes_bundle _ Hb Hall Hfuel)|].
  rewrite (PEMCollectionFromBytes_bundle _ Hb Hall Hfuel). reflexivity.
Qed.

(** X5. On a bundle with exactly one certificate the policy does not
    matter: all three give that certificate, an empty chain and the same
    private key. *)
Theorem PEMCollectionFromBytes_single_certificate :
  forall (certBytes : bytes) (trace : list (bytes * pem.Block))
         (c : x509.Certificate) (chainOrder : ChainOption) (fuel : nat),
    bundleOf certBytes trace ->
    Forall certificateParses trace ->
    certificatesOf trace = [c] ->
    List.length trace < fuel ->
    PEMCollectionFromBytes fuel certBytes chainOrder
    = Returns (Ok (mkPEMCollection (pemOf c) (keyTextOf trace "") [] "")).
Proof.
  intros certBytes trace c chainOrder fuel Hb Hall Hc Hfuel.
  rewrite (PEMCollectionFromBytes_bundle _ Hb Hall Hfuel), Hc.
  destruct chainOrder; reflexivity.
Qed.

(** X6. The parser never panics, whatever the input, the policy and the
    bound on the loop: the indexing [chain[0]] and [chain[len(chain)-1]] is
    guarded by [len(chain) > 0], and [AddChainElement] is never reached with
    a nil receiver or a nil certificate. *)
Theorem PEMCollectionFromBytes_never_panics :
  forall (fuel : nat) (certBytes : bytes) (chainOrder : ChainOption),
    PEMCollectionFromBytes fuel certBytes chainOrder <> Panics.
Proof.
  intros fuel certBytes chainOrder. unfold PEMCollectionFromBytes.
  pose proof (scanBlocks_no_panic fuel certBytes [] "") as Hscan.
  destruct (scanBlocks fuel certBytes [] "") as [[[chain privPEM]|err]| |];
    simpl; try discriminate; [|congruence].
  rewrite assembleCollection_spec. discriminate.
Qed.

(** X7. The only error the parser returns is the error of
    x509.ParseCertificate on a block labelled CERTIFICATE that the loop
    decoded, the first such block that does not parse; in particular the
    error of [AddChainElement] never comes out of it. *)
Theorem PEMCollectionFromBytes_error_source :
  forall (fuel : nat) (certBytes : bytes) (chainOrder : ChainOption)
         (err : error),
    PEMCollectionFromBytes fuel certBytes chainOrder = Returns (Err err) ->
    exists before cursor p remaining,
      decodesTo certBytes before cursor
      /\ Forall certificateParses before
      /\ List.length before < fuel
      /\ pem_Decode cursor = Some (p, remaining)
      /\ pem.Type_ p = "CERTIFICATE"
      /\ x509_ParseCertificate (pem.Bytes p) = Err err.
Proof.
  intros fuel certBytes chainOrder err H. unfold PEMCollectionFromBytes in H.
  destruct (scanBlocks fuel certBytes [] "") as [[[chain privPEM]|e]| |] eqn:Hs;
    simpl in H; try discriminate.
  - rewrite assembleCollection_spec in H. discriminate.
  - injection H as ->. exact (scanBlocks_error_inv _ _ _ _ Hs).
Qed.

(** X8. The parser returns a collection only after it went through the
    whole input and every block labelled CERTIFICATE parsed: there is no
    partial result. The collection is then the one the positional rule gives
    for the certificates decoded, and its CSR is empty. *)
Theorem PEMCollectionFromBytes_success_inv :
  forall (fuel : nat) (certBytes : bytes) (chainOrder : ChainOption)
         (collection : PEMCollection),
    PEMCollectionFromBytes fuel certBytes chainOrder
    = Returns (Ok collection) ->
    exists trace,
      bundleOf certBytes trace
      /\ Forall certificateParses trace
      /\ List.length trace < fuel
      /\ collection
         = mkPEMCollection
             (match singleOf (certificatesOf trace) chainOrder with
              | Some c => pemOf c
              | None => ""
              end)
             (keyTextOf trace "")
             (map pemOf (othersOf (certificatesOf trace) chainOrder))
             ""
      /\ CSR collection = "".
Proof.
  intros fuel certBytes chainOrder collection H.
  unfold PEMCollectionFromBytes in H.
  destruct (scanBlocks fuel certBytes [] "") as [[[chain privPEM]|e]| |] eqn:Hs;
    simpl in H; try discriminate.
  destruct (scanBlocks_ok_inv _ _ _ _ Hs)
    as [trace [Hb [Hall [Hlen [Hc Hk]]]]].
  simpl in Hc. subst chain privPEM.
  rewrite assembleCollection_spec in H. injection H as <-.
  exists trace. repeat split; assumption.
Qed.

End ParserCoverage.

(** * Further properties of the collection and of the exporter *)

Section CollectionCoverage.
Context {lib : Library}.

Lemma addEach_fields (certificates : list (option x509.Certificate)) :
  forall col,
    Chain (addEach col certificates)
    = Chain col ++ map pemOf (presentOf certificates)
    /\ Certificate (addEach col certificates) = Certificate col
    /\ PrivateKey (addEach col certificates) = PrivateKey col
    /\ CSR (addEach col certificates) = CSR col.
Proof.
  unfold addEach, presentOf.
  induction certificates as [|[c|] certificates IH]; intro col;
    cbn [fold_left flat_map].
  - rewrite app_nil_r. repeat split.
  - destruct (IH (fst (AddChainElement col (Some c)))) as [H1 [H2 [H3 H4]]].
    rewrite H1, H2, H3, H4. cbn [AddChainElement fst setChain Chain
      Certificate PrivateKey CSR app map].
    rewrite <- app_assoc. repeat split.
  - apply (IH col).
Qed.

(** X9. Chain elements are kept in call order: after any sequence of
    [AddChainElement] calls the chain is the old chain followed by the PEM
    texts of the certificates passed, in the order of the calls; a call
    with a nil certificate returns an error and changes nothing; no call
    touches the certificate, the private key or the CSR. *)
Theorem AddChainElement_call_order :
  forall (certificates : list (option x509.Certificate))
         (col : PEMCollection),
    Chain (addEach col certificates)
    = Chain col ++ map pemOf (presentOf certificates)
    /\ List.length (Chain (addEach col certificates))
       = List.length (Chain col) + List.length (presentOf certificates)
    /\ Certificate (addEach col certificates) = Certificate col
    /\ PrivateKey (addEach col certificates) = PrivateKey col
    /\ CSR (addEach col certificates) = CSR col
    /\ AddChainElement col None
       = (col, Some (VcertError "certificate cannot be nil")).
Proof.
  intros certificates col.
  destruct (addEach_fields certificates col) as [H1 [H2 [H3 H4]]].
  repeat split; try assumption.
  rewrite H1, length_app, length_map. reflexivity.
Qed.

(** X10. [AddPrivateKey] is all or nothing: when it returns an error the
    collection is unchanged; when it returns nil the collection had no
    private key, the key encoder succeeded, and only the private key field
    changed, to the text of the encoded block. *)
Theorem AddPrivateKey_all_or_nothing :
  forall (col : PEMCollection) (privateKey : option Signer)
         (privateKeyPassword : bytes) (format : list string)
         (col' : PEMCollection) (err : option error),
    AddPrivateKey col privateKey privateKeyPassword format = (col', err) ->
    Certificate col' = Certificate col
    /\ Chain col' = Chain col
    /\ CSR col' = CSR col
    /\ (err <> None -> col' = col)
    /\ (err = None ->
        PrivateKey col = ""
        /\ exists p,
             encodePrivateKey privateKey privateKeyPassword
               (currentFormatOf format) = Ok p
             /\ PrivateKey col'
                = string_of_list_byte (pem_EncodeToMemory p)).
Proof.
  intros col privateKey password format col' err H.
  unfold AddPrivateKey in H.
  destruct (String.eqb_spec (PrivateKey col) "") as [E|N]; simpl in H.
  - destruct (encodePrivateKey privateKey password (currentFormatOf format))
      as [p|e] eqn:He; injection H as <- <-.
    + repeat split; try reflexivity; try congruence.
      exists p. now split.
    + repeat split; congruence.
  - injection H as <- <-. repeat split; congruence.
Qed.

(** X11. Building with a signing key is building without one and then
    adding the key: [NewPEMCollection] with a key returns what
    [AddPrivateKey] makes of the key-less collection, error included. *)
Theorem NewPEMCollection_then_AddPrivateKey :
  forall (certificate : option x509.Certificate) (privateKey : Signer)
         (privateKeyPassword : bytes) (format : list string),
    exists keyless,
      NewPEMCollection certificate None privateKeyPassword format
      = Ok keyless
      /\ NewPEMCollection certificate (Some privateKey)
           privateKeyPassword format
         = match AddPrivateKey keyless (Some privateKey)
                   privateKeyPassword format with
           | (col, None) => Ok col
           | (_, Some err) => Err err
           end.
Proof.
  intros certificate privateKey password format.
  eexists. split; [reflexivity|].
  unfold NewPEMCollection, AddPrivateKey.
  destruct certificate as [c|]; cbn [PrivateKey setCertificate
    emptyPEMCollection String.eqb negb];
    destruct (encodePrivateKey (Some privateKey) password
                (currentFormatOf format)); reflexivity.
Qed.

Lemma appendChainDER_decodable (chain : list string) :
  Forall decodable chain ->
  forall certificate,
    exists ders,
      appendChainDER certificate chain = Returns (certificate ++ ders)
      /\ List.length ders = List.length chain.
Proof.
  induction 1 as [|s chain [p [rest Hd]] _ IH]; intro certificate; simpl.
  - exists []. now rewrite app_nil_r.
  - rewrite Hd. destruct (IH (certificate ++ [pem.Bytes p])) as [ders [H L]].
    exists (pem.Bytes p :: ders). rewrite H, <- app_assoc. simpl.
    now rewrite L.
Qed.

Lemma appendChainDER_returns_inv (chain : list string) :
  forall certificate ders,
    appendChainDER certificate chain = Returns ders ->
    Forall decodable chain.
Proof.
  induction chain as [|s chain IH]; intros certificate ders H; simpl in H;
    [constructor|].
  destruct (pem_Decode (list_byte_of_string s)) as [[b rest]|] eqn:Hd;
    [|discriminate].
  constructor; [now exists b, rest | exact (IH _ _ H)].
Qed.

(** X12. The exporter returns exactly when the certificate text, every
    chain entry and the private key text decode as PEM, and panics
    otherwise; when it returns, the DER list has one entry for the
    certificate and one for each chain entry. *)
Theorem ToTLSCertificate_returns_iff :
  forall col : PEMCollection,
    ((decodable (Certificate col) /\ Forall decodable (Chain col)
      /\ decodable (PrivateKey col))
     <-> exists t, ToTLSCertificate col = Returns t)
    /\ (forall t,
           ToTLSCertificate col = Returns t ->
           List.length (tls.CertificateDER t) = S (List.length (Chain col)))
    /\ (ToTLSCertificate col = Panics
        \/ exists t, ToTLSCertificate col = Returns t).
Proof.
  intro col. unfold ToTLSCertificate, decodable.
  destruct (pem_Decode (list_byte_of_string (Certificate col)))
    as [[b rest]|] eqn:Hc.
  - pose proof (appendChainDER_bounded (Chain col) ([] ++ [pem.Bytes b]))
      as Hbound.
    pose proof (appendChainDER_returns_inv (Chain col) ([] ++ [pem.Bytes b]))
      as Hinv.
    pose proof (fun H : Forall decodable (Chain col) =>
                  appendChainDER_decodable H ([] ++ [pem.Bytes b]))
      as Hdec.
    destruct (appendChainDER ([] ++ [pem.Bytes b]) (Chain col))
      as [ders| |] eqn:Ha; simpl; [| |congruence].
    + destruct (pem_Decode (list_byte_of_string (PrivateKey col)))
        as [[kb krest]|] eqn:Hk.
      * split; [|split].
        -- split; [intros _; eauto|].
           intros _. split; [eauto|]. split; [exact (Hinv _ eq_refl) | eauto].
        -- intros t H. injection H as <-. simpl.
           destruct (Hdec (Hinv _ eq_refl)) as [ders' [E L]].
           injection E as ->. simpl. lia.
        -- right. eauto.
      * split; [|split].
        -- split; [intros [_ [_ [p [r H]]]]; discriminate|].
           intros [t H]. discriminate.
        -- intros t H. discriminate.
        -- now left.
    + split; [|split].
      * split.
        -- intros [_ [Hall _]]. destruct (Hdec Hall) as [ders [E _]].
           discriminate.
        -- intros [t H]. discriminate.
      * intros t H. discriminate.
      * now left.
  - split; [|split].
    + split; [intros [[p [r H]] _]; discriminate | intros [t H]; discriminate].
    + intros t H. discriminate.
    + now left.
Qed.

(** X13. The exporter parses a key only from a block labelled
    EC PRIVATE KEY or RSA PRIVATE KEY. For any other label, PRIVATE KEY and
    ENCRYPTED PRIVATE KEY included although the bundle parser takes them for
    private keys, it returns a TLS certificate whose private key is unset,
    without any error. *)
Theorem ToTLSCertificate_unsupported_key_label :
  forall (col : PEMCollection) (kb : pem.Block) (krest : bytes),
    decodable (Certificate col) ->
    Forall decodable (Chain col) ->
    pem_Decode (list_byte_of_string (PrivateKey col)) = Some (kb, krest) ->
    pem.Type_ kb <> "EC PRIVATE KEY" ->
    pem.Type_ kb <> "RSA PRIVATE KEY" ->
    exists t,
      ToTLSCertificate col = Returns t /\ tls.PrivateKey t = None.
Proof.
  intros col kb krest [b [rest Hc]] Hchain Hk Hec Hrsa.
  unfold ToTLSCertificate. rewrite Hc.
  destruct (appendChainDER_decodable Hchain ([] ++ [pem.Bytes b]))
    as [ders [Ha _]].
  rewrite Ha. cbn [bindOutcome]. rewrite Hk.
  eexists. split; [reflexivity|]. cbn [tls.PrivateKey].
  unfold parsePrivateKey.
  destruct (String.eqb_spec (pem.Type_ kb) "EC PRIVATE KEY");
    [contradiction|].
  destruct (String.eqb_spec (pem.Type_ kb) "RSA PRIVATE KEY");
    [contradiction | reflexivity].
Qed.

(** The exporter on a collection whose certificate and chain are the PEM
    texts of known certificates. *)
Lemma ToTLSCertificate_of_certificates (col : PEMCollection)
    (single : x509.Certificate) (others : list x509.Certificate)
    (kb : pem.Block) (krest : bytes) :
  Certificate col = pemOf single ->
  Chain col = map pemOf others ->
  pemRoundTrips (GetCertificatePEMBlock (x509.Raw single)) ->
  Forall (fun c => pemRoundTrips (GetCertificatePEMBlock (x509.Raw c)))
    others ->
  pem_Decode (list_byte_of_string (PrivateKey col)) = Some (kb, krest) ->
  ToTLSCertificate col
  = Returns (tls.mkCertificate (x509.Raw single :: map x509.Raw others)
               (parsePrivateKey kb)).
Proof.
  intros Hc Hchain [rest Hrt] Hall Hk.
  unfold ToTLSCertificate. rewrite Hc, Hchain. unfold pemOf at 1.
  unfold GetCertificatePEMBlock in Hrt.
  rewrite list_byte_of_string_of_list_byte, Hrt.
  assert (H2 : Forall2 isCertificatePEM (map pemOf others)
                 (map x509.Raw others)).
  { clear - Hall. induction Hall as [|c l Hc' _ IH]; simpl.
    - constructor.
    - constructor; [now apply pemRoundTrips_certificate | exact IH]. }
  rewrite (appendChainDER_chain H2). cbn [bindOutcome]. rewrite Hk.
  reflexivity.
Qed.

Lemma singleOf_In (certs : list x509.Certificate) (chainOrder : ChainOption)
    (c : x509.Certificate) :
  singleOf certs chainOrder = Some c -> In c certs.
Proof.
  destruct chainOrder; simpl.
  - destruct certs; [discriminate|]. intros [= ->]. now left.
  - destruct certs as [|c0 cs]; [discriminate|].
    destruct (@exists_last _ (c0 :: cs)) as [l [x E]]; [discriminate|].
    rewrite E, map_app. change (map Some [x]) with [Some x].
    rewrite last_last. intros [= ->]. apply in_or_app. right. now left.
  - destruct certs; [discriminate|]. intros [= ->]. now left.
Qed.

Lemma othersOf_In (certs : list x509.Certificate) (chainOrder : ChainOption)
    (c : x509.Certificate) :
  In c (othersOf certs chainOrder) -> In c certs.
Proof.
  destruct chainOrder; cbn [othersOf].
  - destruct certs; simpl; intro H; [contradiction | now right].
  - destruct certs as [|c0 cs]; [intros []|].
    destruct (@exists_last _ (c0 :: cs)) as [l [x E]]; [discriminate|].
    rewrite E, removelast_last. intro H. apply in_or_app. now left.
  - intros [].
Qed.

Lemma singleOf_nonempty (certs : list x509.Certificate)
    (chainOrder : ChainOption) :
  certs <> [] -> exists c, singleOf certs chainOrder = Some c.
Proof.
  intro H. destruct chainOrder; simpl.
  - destruct certs; [now elim H | eexists; reflexivity].
  - destruct (exists_last H) as [l [x ->]].
    rewrite map_app. change (map Some [x]) with [Some x].
    rewrite last_last. eexists; reflexivity.
  - destruct certs; [now elim H | eexists; reflexivity].
Qed.

(** A private-key block inside a bundle. *)
Lemma key_block_trace (certBytes cursor remaining : bytes)
    (before after : list (bytes * pem.Block)) (p : pem.Block) :
  decodesTo certBytes before cursor ->
  pem_Decode cursor = Some (p, remaining) ->
  isPrivateKeyBlock (cursor, p) ->
  bundleOf remaining after ->
  Forall (fun step => ~ isPrivateKeyBlock step) after ->
  Forall certificateParses (before ++ after) ->
  bundleOf certBytes (before ++ (cursor, p) :: after)
  /\ Forall certificateParses (before ++ (cursor, p) :: after)
  /\ keyTextOf (before ++ (cursor, p) :: after) ""
     = string_of_list_byte cursor
  /\ certificatesOf (before ++ (cursor, p) :: after)
     = certificatesOf (before ++ after).
Proof.
  intros Hbefore Hd Hkey [final [Hafter Hend]] Hnokey Hall.
  unfold isPrivateKeyBlock in Hkey. cbn [snd] in Hkey.
  pose proof (isPrivateKeyType_not_certificate _ Hkey) as Hnc.
  repeat split.
  - exists final. split; [|assumption].
    apply (decodesTo_app Hbefore). econstructor; eassumption.
  - apply Forall_app in Hall as [H1 H2]. apply Forall_app.
    split; [assumption|]. constructor; [|assumption].
    intro E. cbn [snd] in E. rewrite E in Hnc. discriminate.
  - rewrite keyTextOf_app, keyTextOf_cons, (keyTextOf_no_key Hnokey).
    cbn [fst snd]. now rewrite Hnc, Hkey.
  - rewrite !certificatesOf_app, (certificatesOf_cons (cursor, p)).
    unfold certificatesOf at 2. cbn [flat_map snd]. now rewrite Hnc.
Qed.

(** X14. Parsing a bundle and exporting the result: with at least one
    certificate and a private-key block in the bundle, the exporter returns
    a TLS certificate whose DER list is the DER of the certificate the
    policy selected followed by the DER of the chain, and whose key is
    parsed from the last private-key block alone: what follows that block
    in the stored private key text is not read. *)
Theorem PEMCollectionFromBytes_then_ToTLSCertificate :
  forall (certBytes : bytes) (before after : list (bytes * pem.Block))
         (cursor remaining : bytes) (p : pem.Block)
         (chainOrder : ChainOption) (fuel : nat),
    decodesTo certBytes before cursor ->
    pem_Decode cursor = Some (p, remaining) ->
    isPrivateKeyBlock (cursor, p) ->
    bundleOf remaining after ->
    Forall (fun step => ~ isPrivateKeyBlock step) after ->
    Forall certificateParses (before ++ after) ->
    Forall (fun c => pemRoundTrips (GetCertificatePEMBlock (x509.Raw c)))
      (certificatesOf (before ++ after)) ->
    certificatesOf (before ++ after) <> [] ->
    List.length before + List.length after + 1 < fuel ->
    exists collection single t,
      PEMCollectionFromBytes fuel certBytes chainOrder
      = Returns (Ok collection)
      /\ singleOf (certificatesOf (before ++ after)) chainOrder = Some single
      /\ ToTLSCertificate collection = Returns t
      /\ tls.CertificateDER t
         = x509.Raw single
           :: map x509.Raw
                (othersOf (certificatesOf (before ++ after)) chainOrder)
      /\ tls.PrivateKey t = parsePrivateKey p.
Proof.
  intros certBytes before after cursor remaining p chainOrder fuel
    Hbefore Hd Hkey Hafter Hnokey Hall Hrt Hne Hfuel.
  destruct (key_block_trace Hbefore Hd Hkey Hafter Hnokey Hall)
    as [Hb [Hall' [Htext Hcerts]]].
  assert (Hlen : List.length (before ++ (cursor, p) :: after) < fuel)
    by (rewrite length_app; simpl; lia).
  destruct (singleOf_nonempty chainOrder Hne) as [single Hsingle].
  eexists. exists single. eexists.
  split; [apply (PEMCollectionFromBytes_bundle _ Hb Hall' Hlen)|].
  split; [exact Hsingle|].
  rewrite Hcerts, Hsingle, Htext.
  rewrite Forall_forall in Hrt.
  rewrite (@ToTLSCertificate_of_certificates _ single
             (othersOf (certificatesOf (before ++ after)) chainOrder)
             p remaining); try reflexivity.
  - repeat split.
  - apply Hrt. exact (singleOf_In _ _ Hsingle).
  - apply Forall_forall. intros c Hin. apply Hrt.
    exact (othersOf_In _ _ _ Hin).
  - cbn [PrivateKey]. now rewrite list_byte_of_string_of_list_byte.
Qed.

Lemma presentOf_map_Some (cas : list x509.Certificate) :
  presentOf (map Some cas) = cas.
Proof.
  unfold presentOf. induction cas as [|c cas IH]; simpl;
    [reflexivity | now rewrite IH].
Qed.

(** X15. Building from a certificate and a signing key, adding chain
    certificates and exporting: the DER list of the TLS certificate is the
    certificate's DER followed by the DER of the chain certificates in the
    order they were added. *)
Theorem NewPEMCollection_chain_ToTLSCertificate :
  forall (certificate : x509.Certificate) (privateKey : Signer)
         (privateKeyPassword : bytes) (format : list string)
         (cas : list x509.Certificate) (collection : PEMCollection),
    NewPEMCollection (Some certificate) (Some privateKey)
      privateKeyPassword format = Ok collection ->
    Forall (fun c => pemRoundTrips (GetCertificatePEMBlock (x509.Raw c)))
      (certificate :: cas) ->
    decodable (PrivateKey collection) ->
    exists t,
      ToTLSCertificate (addEach collection (map Some cas)) = Returns t
      /\ tls.CertificateDER t
         = x509.Raw certificate :: map x509.Raw cas.
Proof.
  intros certificate privateKey password format cas collection Hnew Hrt
    [kb [krest Hk]].
  inversion Hrt as [|? ? Hleaf Hcas]; subst.
  destruct (addEach_fields (map Some cas) collection) as [H1 [H2 [H3 _]]].
  pose proof (presentOf_map_Some cas) as Hpresent.
  unfold NewPEMCollection in Hnew.
  destruct (encodePrivateKey (Some privateKey) password
              (currentFormatOf format)) as [kp|e]; [|discriminate].
  injection Hnew as <-.
  cbn [Certificate Chain PrivateKey setPrivateKey setCertificate
    emptyPEMCollection app] in *.
  rewrite Hpresent in H1.
  eexists. split.
  - apply (@ToTLSCertificate_of_certificates _ certificate cas kb krest);
      try assumption. now rewrite H3.
  - reflexivity.
Qed.

(** X17. A collection parsed from a bundle that holds a private-key block
    already has its one private key: [AddPrivateKey] on it returns the
    error about the single private key and leaves it unchanged. *)
Theorem PEMCollectionFromBytes_then_AddPrivateKey :
  forall (certBytes : bytes) (before after : list (bytes * pem.Block))
         (cursor remaining : bytes) (p : pem.Block)
         (chainOrder : ChainOption) (fuel : nat)
         (privateKey : option Signer) (privateKeyPassword : bytes)
         (format : list string),
    pem_Decode [] = None ->
    decodesTo certBytes before cursor ->
    pem_Decode cursor = Some (p, remaining) ->
    isPrivateKeyBlock (cursor, p) ->
    bundleOf remaining after ->
    Forall (fun step => ~ isPrivateKeyBlock step) after ->
    Forall certificateParses (before ++ after) ->
    List.length before + List.length after + 1 < fuel ->
    exists collection,
      PEMCollectionFromBytes fuel certBytes chainOrder
      = Returns (Ok collection)
      /\ AddPrivateKey collection privateKey privateKeyPassword format
         = (collection,
            Some (VcertError
                    "the PEM Collection can only contain one private key")).
Proof.
  intros certBytes before after cursor remaining p chainOrder fuel
    privateKey password format Hempty Hbefore Hd Hkey Hafter Hnokey Hall
    Hfuel.
  destruct (key_block_trace Hbefore Hd Hkey Hafter Hnokey Hall)
    as [Hb [Hall' [Htext _]]].
  assert (Hlen : List.length (before ++ (cursor, p) :: after) < fuel)
    by (rewrite length_app; simpl; lia).
  eexists.
  split; [apply (PEMCollectionFromBytes_bundle _ Hb Hall' Hlen)|].
  unfold AddPrivateKey. cbn [PrivateKey]. rewrite Htext.
  destruct cursor as [|b cursor]; [congruence|]. reflexivity.
Qed.

End CollectionCoverage.

(** * Further properties of the policy reader *)

Section PolicyCoverage.
Context {lib : Library}.

Lemma caseVariant_lowerByte (a b : ascii) :
  caseVariant a b = true -> lowerByte a = lowerByte b.
Proof.
  unfold caseVariant. rewrite !orb_true_iff, !andb_true_iff, !Nat.eqb_eq.
  intros [[H | [Ha H]] | [Hb H]].
  - apply nat_of_ascii_inj in H. now subst.
  - apply nat_of_ascii_inj. rewrite (lowerByte_upper _ Ha).
    rewrite lowerByte_other; [now symmetry|].
    apply isUpperByte_spec in Ha. unfold isUpperByte.
    apply andb_false_iff. right. apply Nat.leb_gt. lia.
  - apply nat_of_ascii_inj. rewrite (lowerByte_upper _ Hb).
    rewrite lowerByte_other; [assumption|].
    apply isUpperByte_spec in Hb. unfold isUpperByte.
    apply andb_false_iff. right. apply Nat.leb_gt. lia.
Qed.

Lemma caseVariant_ascii_r (a b : ascii) :
  caseVariant a b = true -> isASCIIByte a = true -> isASCIIByte b = true.
Proof.
  unfold caseVariant, isASCIIByte.
  rewrite !orb_true_iff, !andb_true_iff, !Nat.eqb_eq, !Nat.ltb_lt.
  intros [[H | [Ha H]] | [Hb H]] Ha'.
  - lia.
  - apply isUpperByte_spec in Ha. lia.
  - lia.
Qed.

Lemma equalFold_lowered (s : string) :
  forall t,
    equalFoldASCII s t = true ->
    mapString lowerByte s = mapString lowerByte t
    /\ (forallString isASCIIByte s = true ->
        forallString isASCIIByte t = true).
Proof.
  induction s as [|a s IH]; intros [|b t]; simpl; try discriminate.
  - now split.
  - rewrite andb_true_iff. intros [Hab Hst].
    destruct (IH t Hst) as [IH1 IH2]. split.
    + now rewrite (caseVariant_lowerByte _ _ Hab), IH1.
    + rewrite !andb_true_iff. intros [Ha Hs].
      split; [exact (caseVariant_ascii_r _ _ Hab Ha) | exact (IH2 Hs)].
Qed.

Lemma length_mapString (f : ascii -> ascii) (s : string) :
  String.length (mapString f s) = String.length s.
Proof. induction s as [|c s IH]; simpl; [reflexivity | now rewrite IH]. Qed.

(** X16. On ASCII text the policy reader sees neither case nor anything
    but the whole text: two ASCII texts that differ only in the case of
    their letters give the same policy, and an ASCII text whose length is
    not that of "root-first" or of "ignore" gives [ChainOptionRootLast], so
    white space is not trimmed and a prefix does not match. *)
Theorem ChainOptionFromString_ascii_fold :
  (forall s t : string,
      forallString isASCIIByte s = true ->
      equalFoldASCII s t = true ->
      ChainOptionFromString s = ChainOptionFromString t)
  /\ (forall s : string,
         forallString isASCIIByte s = true ->
         String.length s <> 10 ->
         String.length s <> 6 ->
         ChainOptionFromString s = ChainOptionRootLast).
Proof.
  split.
  - intros s t Hs Hfold.
    destruct (equalFold_lowered s t Hfold) as [Hmap Ht].
    unfold ChainOptionFromString.
    now rewrite (ToLower_ascii _ Hs), (ToLower_ascii _ (Ht Hs)), Hmap.
  - intros s Hs H10 H6.
    destruct (ChainOptionFromString_cases s)
      as [[E _] | [[E _] | [_ [_ R]]]]; [exfalso | exfalso | exact R];
      rewrite (ToLower_ascii _ Hs) in E;
      apply (f_equal String.length) in E;
      rewrite length_mapString in E; simpl in E; contradiction.
Qed.

End PolicyCoverage.

(** * The further properties on sample bundles *)

Section CoverageSamples.

Lemma PEMCollectionFromBytes_no_certificate_witness :
  PEMCollectionFromBytes 2 bundleKeyOnly ChainOptionRootFirst
  = Returns (Ok (mkPEMCollection ""
                   (keyTextOf (traceOf 4 bundleKeyOnly) "") [] ""))
  /\ (traceOf 4 bundleKeyOnly = [] ->
      PEMCollectionFromBytes 2 bundleKeyOnly ChainOptionRootFirst
      = Returns (Ok emptyPEMCollection)).
Proof.
  apply (@PEMCollectionFromBytes_no_certificate exampleLibrary
           bundleKeyOnly (traceOf 4 bundleKeyOnly) ChainOptionRootFirst 2).
  - apply traceOf_bundle. vm_compute. lia.
  - vm_compute. repeat constructor. discriminate.
  - vm_compute. lia.
Defined.

Lemma PEMCollectionFromBytes_mixed_bundle_witness :
  exists collection,
    PEMCollectionFromBytes 5 bundleMixed ChainOptionRootFirst
    = Returns (Ok collection)
    /\ Certificate collection
       = last (map pemOf (certificatesOf (traceOf 8 bundleMixed))) ""
    /\ Chain collection
       = removelast (map pemOf (certificatesOf (traceOf 8 bundleMixed)))
    /\ PrivateKey collection = keyTextOf (traceOf 8 bundleMixed) ""
    /\ CSR collection = "".
Proof.
  apply (@PEMCollectionFromBytes_mixed_bundle exampleLibrary
           bundleMixed (traceOf 8 bundleMixed) ChainOptionRootFirst 5).
  - apply traceOf_bundle. vm_compute. lia.
  - vm_compute. repeat constructor; intros _; eexists; reflexivity.
  - vm_compute. lia.
Defined.

Lemma PEMCollectionFromBytes_keeps_every_certificate_witness :
  exists rootLast rootFirst,
    PEMCollectionFromBytes 5 bundleMixed ChainOptionRootLast
    = Returns (Ok rootLast)
    /\ PEMCollectionFromBytes 5 bundleMixed ChainOptionRootFirst
       = Returns (Ok rootFirst)
    /\ Certificate rootLast :: Chain rootLast
       = map pemOf (certificatesOf (traceOf 8 bundleMixed))
    /\ Chain rootFirst ++ [Certificate rootFirst]
       = map pemOf (certificatesOf (traceOf 8 bundleMixed))
    /\ Certificate rootLast :: Chain rootLast
       = Chain rootFirst ++ [Certificate rootFirst].
Proof.
  apply (@PEMCollectionFromBytes_keeps_every_certificate exampleLibrary
           bundleMixed (traceOf 8 bundleMixed) 5).
  - apply traceOf_bundle. vm_compute. lia.
  - vm_compute. repeat constructor; intros _; eexists; reflexivity.
  - vm_compute. discriminate.
  - vm_compute. lia.
Defined.

Lemma PEMCollectionFromBytes_Ignore_drops_chain_witness :
  exists rootLast,
    PEMCollectionFromBytes 4 bundle3 ChainOptionRootLast
    = Returns (Ok rootLast)
    /\ PEMCollectionFromBytes 4 bundle3 ChainOptionIgnore
       = Returns (Ok (setChain rootLast [])).
Proof.
  apply (@PEMCollectionFromBytes_Ignore_drops_chain exampleLibrary
           bundle3 (traceOf 8 bundle3) 4).
  - apply traceOf_bundle. vm_compute. lia.
  - vm_compute. repeat constructor; intros _; eexists; reflexivity.
  - vm_compute. lia.
Defined.

Lemma PEMCollectionFromBytes_single_certificate_witness :
  PEMCollectionFromBytes 3 (certText der1 ++ keyText) ChainOptionRootFirst
  = Returns (Ok (mkPEMCollection (pemOf cert1)
                   (keyTextOf (traceOf 4 (certText der1 ++ keyText)) "")
                   [] "")).
Proof.
  apply (@PEMCollectionFromBytes_single_certificate exampleLibrary
           (certText der1 ++ keyText)
           (traceOf 4 (certText der1 ++ keyText))
           cert1 ChainOptionRootFirst 3).
  - apply traceOf_bundle. vm_compute. lia.
  - vm_compute. repeat constructor; intros _; eexists; reflexivity.
  - vm_compute. reflexivity.
  - vm_compute. lia.
Defined.

Lemma PEMCollectionFromBytes_error_source_witness :
  exists before cursor p remaining,
    decodesTo bundleBad before cursor
    /\ Forall certificateParses before
    /\ List.length before < 4
    /\ pem_Decode cursor = Some (p, remaining)
    /\ pem.Type_ p = "CERTIFICATE"
    /\ x509_ParseCertificate (pem.Bytes p)
       = Err (LibraryError "x509: malformed certificate").
Proof.
  apply (@PEMCollectionFromBytes_error_source exampleLibrary
           4 bundleBad ChainOptionIgnore
           (LibraryError "x509: malformed certificate")).
  vm_compute. reflexivity.
Defined.

Lemma PEMCollectionFromBytes_success_inv_witness :
  exists trace,
    bundleOf bundle3 trace
    /\ Forall certificateParses trace
    /\ List.length trace < 4
    /\ mkPEMCollection (pemOf cert3) "" [pemOf cert1; pemOf cert2] ""
       = mkPEMCollection
           (match singleOf (certificatesOf trace) ChainOptionRootFirst with
            | Some c => pemOf c
            | None => ""
            end)
           (keyTextOf trace "")
           (map pemOf (othersOf (certificatesOf trace) ChainOptionRootFirst))
           ""
    /\ CSR (mkPEMCollection (pemOf cert3) "" [pemOf cert1; pemOf cert2] "")
       = "".
Proof.
  apply (@PEMCollectionFromBytes_success_inv exampleLibrary
           4 bundle3 ChainOptionRootFirst
           (mkPEMCollection (pemOf cert3) "" [pemOf cert1; pemOf cert2] "")).
  vm_compute. reflexivity.
Defined.

Lemma AddPrivateKey_all_or_nothing_witness :
  exists col',
    AddPrivateKey (setPrivateKey collection1 "") (Some derKey) [] []
    = (col', None)
    /\ Certificate col' = Certificate (setPrivateKey collection1 "")
    /\ Chain col' = Chain (setPrivateKey collection1 "")
    /\ PrivateKey col' = string_of_list_byte keyText.
Proof.
  exists collection1.
  split; [vm_compute; reflexivity|].
  destruct (@AddPrivateKey_all_or_nothing exampleLibrary
              (setPrivateKey collection1 "") (Some derKey) [] []
              collection1 None)
    as [H1 [H2 [_ [_ H5]]]].
  - vm_compute. reflexivity.
  - split; [exact H1|]. split; [exact H2|].
    destruct (H5 eq_refl) as [_ [p [Hp Htext]]].
    vm_compute. reflexivity.
Defined.

Lemma ToTLSCertificate_returns_iff_witness :
  (exists t,
      ToTLSCertificate (setChain collection1 [pemOf cert2]) = Returns t)
  /\ ToTLSCertificate (setChain collection1 ["not PEM"]) = Panics.
Proof.
  split.
  - apply (proj1 (proj1 (@ToTLSCertificate_returns_iff exampleLibrary
                           (setChain collection1 [pemOf cert2])))).
    split; [|split].
    + eexists. eexists. vm_compute. reflexivity.
    + repeat constructor. eexists. eexists. vm_compute. reflexivity.
    + eexists. eexists. vm_compute. reflexivity.
  - destruct (proj2 (proj2 (@ToTLSCertificate_returns_iff exampleLibrary
                              (setChain collection1 ["not PEM"]))))
      as [H | [t H]]; [exact H|].
    vm_compute in H. discriminate H.
Defined.

Lemma ToTLSCertificate_unsupported_key_label_witness :
  exists t,
    ToTLSCertificate
      (setPrivateKey collection1
         (string_of_list_byte
            (GoPem.EncodeToMemory (pem.mkBlock "PRIVATE KEY" [] derKey))))
    = Returns t
    /\ tls.PrivateKey t = None.
Proof.
  apply (@ToTLSCertificate_unsupported_key_label exampleLibrary
           (setPrivateKey collection1
              (string_of_list_byte
                 (GoPem.EncodeToMemory (pem.mkBlock "PRIVATE KEY" [] derKey))))
           (pem.mkBlock "PRIVATE KEY" [] derKey) []).
  - eexists. eexists. vm_compute. reflexivity.
  - constructor.
  - vm_compute. reflexivity.
  - vm_compute. discriminate.
  - vm_compute. discriminate.
Defined.

Lemma PEMCollectionFromBytes_then_ToTLSCertificate_witness :
  exists collection single t,
    PEMCollectionFromBytes 4 bundleWithKey ChainOptionRootFirst
    = Returns (Ok collection)
    /\ singleOf
         (certificatesOf
            ([(bundleWithKey, GetCertificatePEMBlock der1)]
             ++ [(certText der2, GetCertificatePEMBlock der2)]))
         ChainOptionRootFirst = Some single
    /\ ToTLSCertificate collection = Returns t
    /\ tls.CertificateDER t
       = x509.Raw single
         :: map x509.Raw
              (othersOf
                 (certificatesOf
                    ([(bundleWithKey, GetCertificatePEMBlock der1)]
                     ++ [(certText der2, GetCertificatePEMBlock der2)]))
                 ChainOptionRootFirst)
    /\ tls.PrivateKey t = parsePrivateKey keyBlock.
Proof.
  apply (@PEMCollectionFromBytes_then_ToTLSCertificate exampleLibrary
           bundleWithKey
           [(bundleWithKey, GetCertificatePEMBlock der1)]
           [(certText der2, GetCertificatePEMBlock der2)]
           (keyText ++ certText der2) (certText der2) keyBlock
           ChainOptionRootFirst 4).
  - apply decodesTo_step with (remaining := keyText ++ certText der2).
    + vm_compute. reflexivity.
    + apply decodesTo_here.
  - vm_compute. reflexivity.
  - vm_compute. reflexivity.
  - exists []. split.
    + apply decodesTo_step with (remaining := []).
      * vm_compute. reflexivity.
      * apply decodesTo_here.
    + vm_compute. reflexivity.
  - repeat constructor. vm_compute. discriminate.
  - repeat constructor; intros _; [exists cert1 | exists cert2];
      vm_compute; reflexivity.
  - replace (certificatesOf
               ([(bundleWithKey, GetCertificatePEMBlock der1)]
                ++ [(certText der2, GetCertificatePEMBlock der2)]))
      with [cert1; cert2] by (vm_compute; reflexivity).
    repeat constructor; exists []; vm_compute; reflexivity.
  - vm_compute. discriminate.
  - simpl. lia.
Defined.

Lemma NewPEMCollection_chain_ToTLSCertificate_witness :
  exists t,
    ToTLSCertificate (addEach collection1 (map Some [cert2; cert3]))
    = Returns t
    /\ tls.CertificateDER t = der1 :: map x509.Raw [cert2; cert3].
Proof.
  apply (@NewPEMCollection_chain_ToTLSCertificate exampleLibrary
           cert1 derKey [] [] [cert2; cert3] collection1).
  - vm_compute. reflexivity.
  - repeat constructor; exists []; vm_compute; reflexivity.
  - exists keyBlock, []. vm_compute. reflexivity.
Defined.

Lemma ChainOptionFromString_ascii_fold_witness :
  ChainOptionFromString "Root-First" = ChainOptionFromString "rOOT-fIRST"
  /\ ChainOptionFromString " ignore" = ChainOptionRootLast
  /\ ChainOptionFromString "root" = ChainOptionRootLast.
Proof.
  destruct (@ChainOptionFromString_ascii_fold exampleLibrary) as [HF HL].
  split; [apply HF; reflexivity|].
  split; apply HL; try reflexivity; simpl; lia.
Defined.

Lemma PEMCollectionFromBytes_then_AddPrivateKey_witness :
  exists collection,
    PEMCollectionFromBytes 4 bundleWithKey ChainOptionRootLast
    = Returns (Ok collection)
    /\ AddPrivateKey collection (Some derKey) [] []
       = (collection,
          Some (VcertError
                  "the PEM Collection can only contain one private key")).
Proof.
  apply (@PEMCollectionFromBytes_then_AddPrivateKey exampleLibrary
           bundleWithKey
           [(bundleWithKey, GetCertificatePEMBlock der1)]
           [(certText der2, GetCertificatePEMBlock der2)]
           (keyText ++ certText der2) (certText der2) keyBlock
           ChainOptionRootLast 4 (Some derKey) [] []).
  - vm_compute. reflexivity.
  - apply decodesTo_step with (remaining := keyText ++ certText der2).
    + vm_compute. reflexivity.
    + apply decodesTo_here.
  - vm_compute. reflexivity.
  - vm_compute. reflexivity.
  - exists []. split.
    + apply decodesTo_step with (remaining := []).
      * vm_compute. reflexivity.
      * apply decodesTo_here.
    + vm_compute. reflexivity.
  - repeat constructor. vm_compute. discriminate.
  - repeat constructor; intros _; [exists cert1 | exists cert2];
      vm_compute; reflexivity.
  - simpl. lia.
Defined.

(** The claim C9 as first worded fails on [dottedIgnore]: the text is a
    case variant neither of "root-first" nor of "ignore", and equal to
    neither, yet strings.ToLower lowers its first rune, U+0130, to the
    letter i, and the policy read is [ChainOptionIgnore], not
    [ChainOptionRootLast]. *)
Lemma ChainOptionFromString_other_text_counterexample :
  equalFoldASCII dottedIgnore "root-first" = false
  /\ equalFoldASCII dottedIgnore "ignore" = false
  /\ String.length dottedIgnore = 7
  /\ ToLower dottedIgnore = "ignore"
  /\ ChainOptionFromString dottedIgnore = ChainOptionIgnore
  /\ ChainOptionFromString dottedIgnore <> ChainOptionRootLast.
Proof.
  vm_compute. repeat split. discriminate.
Qed.

End CoverageSamples.
